(** * DateTimeFilter: a shallow embedding of
      [GeoEDF/connector/filter/DateTimeFilter.py]

    The plugin turns a start date, an optional end date and a period into a
    list of formatted date strings.  Its two methods, [__init__] and
    [filter], are embedded below on top of three small layers that stand
    for the Python and pandas facilities they call:

    - [Py]: Python values, truthiness, exceptions, slices, [int], [%] and
      [math.ceil] of a true division, as CPython 3.11 has them;
    - [Calendar]: the proleptic Gregorian calendar;
    - [Pandas]: [to_datetime] with a format, [strftime] and [date_range],
      as pandas 1.5 has them.

    A string is a sequence of characters with codes below 256, each read
    as the code point of that number; text with other code points is
    outside the embedding.

    Exceptions are values: a computation returns [Val] or [Raise], and the
    two methods return the [GeoEDFError] they raise or the instance they
    leave. *)

From Stdlib Require Import ZArith String Ascii List Bool Lia.
From stdpp Require Import base option gmap strings.

Local Open Scope string_scope.
Local Open Scope Z_scope.

(** ** Python values and operations *)

Module Py.

(** The values a keyword argument takes here: [None], a boolean or a
    string. *)
Inductive pyval :=
| PNone
| PBool (b : bool)
| PStr (s : string).

(** Truth value testing: [None], [False] and the empty string are false. *)
Definition truthy (v : pyval) : bool :=
  match v with
  | PNone => false
  | PBool b => b
  | PStr s => negb (String.eqb s "")
  end.

(** [v is not None] *)
Definition is_not_None (v : pyval) : bool :=
  match v with PNone => false | _ => true end.

Inductive exn :=
| ValueError
| TypeError
| AttributeError
| ZeroDivisionError
| OverflowError.

(** A computation that returns a value or raises. *)
Inductive pyres (A : Type) :=
| Val (a : A)
| Raise (e : exn).
Arguments Val {A} a.
Arguments Raise {A} e.

Definition bind {A B} (c : pyres A) (k : A -> pyres B) : pyres B :=
  match c with
  | Val a => k a
  | Raise e => Raise e
  end.

Definition map_res {A B} (f : A -> B) (c : pyres A) : pyres B :=
  bind c (fun a => Val (f a)).

(** [int(...)] and the matching of a regular expression answer with an
    option; [or_raise] raises where they have no answer. *)
Definition or_raise {A} (e : exn) (o : option A) : pyres A :=
  match o with
  | Some a => Val a
  | None => Raise e
  end.

(** *** Slices of a string *)

(** [s[-1:]]: the last character, or the empty string. *)
Fixpoint slice_last (s : string) : string :=
  match s with
  | EmptyString => EmptyString
  | String c EmptyString => String c EmptyString
  | String _ s' => slice_last s'
  end.

(** [s[:-1]]: all but the last character. *)
Fixpoint slice_init (s : string) : string :=
  match s with
  | EmptyString => EmptyString
  | String _ EmptyString => EmptyString
  | String c s' => String c (slice_init s')
  end.

(** A slice of anything but a string raises [TypeError] ([None] and
    booleans are not subscriptable). *)
Definition subscript (slice : string -> string) (v : pyval) : pyres string :=
  match v with
  | PStr s => Val (slice s)
  | _ => Raise TypeError
  end.

(** *** Characters *)

Definition code (c : ascii) : Z := Z.of_N (N_of_ascii c).

Definition in_range (lo hi : ascii) (c : ascii) : bool :=
  (code lo <=? code c) && (code c <=? code hi).

Definition is_digit : ascii -> bool := in_range "0" "9".

(** The characters that [int] takes for white space around a literal:
    tab to carriage return, the space, and of the codes above 127 the next
    line and the no-break space. *)
Definition is_space (c : ascii) : bool :=
  ((9 <=? code c) && (code c <=? 13)) || (code c =? 32)
  || (code c =? 133) || (code c =? 160).

Definition digit_char (d : Z) : ascii := ascii_of_N (Z.to_N (48 + d)).

(** *** [int(s)] in base ten

    White space around the literal is dropped, one sign is allowed, and
    single underscores may separate digits.  A literal of more than 4300
    digits, leading zeros counted, is refused like one that is no number. *)

Fixpoint lstrip (s : string) : string :=
  match s with
  | String c s' => if is_space c then lstrip s' else s
  | EmptyString => EmptyString
  end.

Fixpoint string_rev (s acc : string) : string :=
  match s with
  | EmptyString => acc
  | String c s' => string_rev s' (String c acc)
  end.

Definition strip (s : string) : string :=
  lstrip (string_rev (lstrip (string_rev s "")) "").

Fixpoint int_digits (s : string) (acc : Z) (after_digit : bool) : option Z :=
  match s with
  | EmptyString => if after_digit then Some acc else None
  | String c s' =>
      if is_digit c then int_digits s' (10 * acc + (code c - 48)) true
      else if Ascii.eqb c "_" && after_digit then int_digits s' acc false
      else None
  end.

Fixpoint count_digits (s : string) : Z :=
  match s with
  | EmptyString => 0
  | String c s' => (if is_digit c then 1 else 0) + count_digits s'
  end.

(** [sys.get_int_max_str_digits()] *)
Definition int_max_str_digits : Z := 4300.

Definition int_opt (s : string) : option Z :=
  if int_max_str_digits <? count_digits s then None
  else
    match strip s with
    | String "+" r => int_digits r 0 false
    | String "-" r => Z.opp <$> int_digits r 0 false
    | t => int_digits t 0 false
    end.

Definition int (s : string) : pyres Z := or_raise ValueError (int_opt s).

(** *** Arithmetic *)

(** [a % n]: the result has the sign of [n]; a zero [n] raises. *)
Definition mod_ (a n : Z) : pyres Z :=
  if n =? 0 then Raise ZeroDivisionError else Val (a mod n).

(** The least integer that is not below the quotient of [a] by [n]. *)
Definition ceiling (a n : Z) : Z := - ((- a) / n).

(** [math.ceil(a / n)] for [0 < a <= 365] and [0 < n], the only arguments
    it gets in [filter].  [a / n] is a double: it is [0.0] when the
    quotient is at most [2^-1075], half the smallest positive double, and
    its ceiling is the exact one otherwise (the quotient is then below 1,
    or at least [1/365] away from the nearest integer). *)
Definition ceil_truediv (a n : Z) : Z :=
  if a * 2 ^ 1075 <=? n then 0 else ceiling a n.

(** *** Decimal formatting *)

Fixpoint digits_of (fuel : nat) (n : Z) (acc : string) : string :=
  match fuel with
  | O => acc
  | S fuel' =>
      let acc' := String (digit_char (n mod 10)) acc in
      if n <? 10 then acc' else digits_of fuel' (n / 10) acc'
  end.

(** ['%d' % n] *)
Definition format_d (n : Z) : string :=
  if n <? 0 then String "-" (digits_of (Z.to_nat (Z.log2 (- n)) + 1) (- n) "")
  else digits_of (Z.to_nat (Z.log2 n) + 1) n "".

(** [n], not negative, written with at least [w] digits, zero-padded on
    the left, as [strftime] writes its numeric fields: the last [w] digits,
    and before them the digits that are left, if any. *)
Fixpoint pad_digits (w : nat) (n : Z) (acc : string) : string :=
  match w with
  | O => if n =? 0 then acc else digits_of (Z.to_nat (Z.log2 n) + 1) n acc
  | S w' => pad_digits w' (n / 10) (String (digit_char (n mod 10)) acc)
  end.

Definition zero_pad (w : nat) (n : Z) : string := pad_digits w n "".

End Py.

Notation "x <~ c ;; k" := (Py.bind c (fun x => k))
  (at level 100, c at next level, right associativity).

(** ** The proleptic Gregorian calendar *)

Module Calendar.

Definition is_leap (y : Z) : bool :=
  (y mod 4 =? 0) && (negb (y mod 100 =? 0) || (y mod 400 =? 0)).

Definition days_in_year (y : Z) : Z := if is_leap y then 366 else 365.

Definition feb (leap : bool) : Z := if leap then 29 else 28.

Definition month_length (leap : bool) (m : Z) : Z :=
  match m with
  | 2 => feb leap
  | 4 | 6 | 9 | 11 => 30
  | _ => 31
  end.

Definition days_in_month (y m : Z) : Z := month_length (is_leap y) m.

(** Days of the year before the first of month [m]. *)
Definition days_before_month (leap : bool) (m : Z) : Z :=
  let l := if leap then 1 else 0 in
  match m with
  | 1 => 0
  | 2 => 31
  | 3 => 59 + l
  | 4 => 90 + l
  | 5 => 120 + l
  | 6 => 151 + l
  | 7 => 181 + l
  | 8 => 212 + l
  | 9 => 243 + l
  | 10 => 273 + l
  | 11 => 304 + l
  | _ => 334 + l
  end.

(** The 1-based ordinal day of month [m], day [d] within year [y]. *)
Definition day_of_year (y m d : Z) : Z :=
  days_before_month (is_leap y) m + d.

(** Month and day of the [j]-th day of a year. *)
Definition month_day_of (leap : bool) (j : Z) : Z * Z :=
  let l := if leap then 1 else 0 in
  if j <=? 31 then (1, j)
  else if j <=? 59 + l then (2, j - 31)
  else if j <=? 90 + l then (3, j - (59 + l))
  else if j <=? 120 + l then (4, j - (90 + l))
  else if j <=? 151 + l then (5, j - (120 + l))
  else if j <=? 181 + l then (6, j - (151 + l))
  else if j <=? 212 + l then (7, j - (181 + l))
  else if j <=? 243 + l then (8, j - (212 + l))
  else if j <=? 273 + l then (9, j - (243 + l))
  else if j <=? 304 + l then (10, j - (273 + l))
  else if j <=? 334 + l then (11, j - (304 + l))
  else (12, j - (334 + l)).

(** [date.fromordinal(j - 1 + date(y, 1, 1).toordinal())] for
    [1 <= j <= 366]: day [j] of year [y], which is 1 January of [y + 1]
    when [y] has 365 days and [j] is 366. *)
Definition date_of_year_day (y j : Z) : Z * Z * Z :=
  if j <=? days_in_year y then
    let '(m, d) := month_day_of (is_leap y) j in (y, m, d)
  else
    let '(m, d) := month_day_of (is_leap (y + 1)) (j - days_in_year y) in
    (y + 1, m, d).

(** Days before 1 January of year [y], counted from 1 January of year 1. *)
Definition days_before_year (y : Z) : Z :=
  let p := y - 1 in 365 * p + p / 4 - p / 100 + p / 400.

(** [date(y, m, d).toordinal()]: 1 January of year 1 is day 1. *)
Definition toordinal (y m d : Z) : Z :=
  days_before_year y + day_of_year y m d.

(** [date.fromordinal(n)], by the 400-, 100-, 4- and 1-year cycles. *)
Definition fromordinal (n : Z) : Z * Z * Z :=
  let n0 := n - 1 in
  let n400 := n0 / 146097 in
  let r400 := n0 mod 146097 in
  let n100 := r400 / 36524 in
  let r100 := r400 mod 36524 in
  let n4 := r100 / 1461 in
  let r4 := r100 mod 1461 in
  let n1 := r4 / 365 in
  let r1 := r4 mod 365 in
  let y := n400 * 400 + 1 + n100 * 100 + n4 * 4 + n1 in
  if (n1 =? 4) || (n100 =? 4) then (y - 1, 12, 31)
  else
    let '(m, d) := month_day_of (is_leap y) (r1 + 1) in (y, m, d).

End Calendar.

(** ** The pandas facilities [filter] calls

    [to_datetime(arg, format=...)], [Timestamp.strftime] and [date_range],
    for dates without a time zone and with whole seconds. *)

Module Pandas.
Import Py Calendar.

Record Timestamp := mkTimestamp {
  year : Z; month : Z; day : Z;
  hour : Z; minute : Z; second : Z
}.

(** What [to_datetime] hands back for a scalar: [None] for [None], [NaT]
    for a null marker, a [Timestamp] otherwise. *)
Inductive date_value :=
| DNone
| NaT
| TS (t : Timestamp).

Definition valid_date (y m d : Z) : bool :=
  (1 <=? y) && (y <=? 9999) && (1 <=? m) && (m <=? 12)
  && (1 <=? d) && (d <=? days_in_month y m).

Definition valid_time (h mi s : Z) : bool :=
  (0 <=? h) && (h <=? 23) && (0 <=? mi) && (mi <=? 59)
  && (0 <=? s) && (s <=? 59).

(** Seconds since midnight before 1 January of year 1. *)
Definition to_seconds (t : Timestamp) : Z :=
  (toordinal (year t) (month t) (day t) - 1) * 86400
  + hour t * 3600 + minute t * 60 + second t.

Definition of_seconds (x : Z) : Timestamp :=
  let '(y, m, d) := fromordinal (x / 86400 + 1) in
  let r := x mod 86400 in
  mkTimestamp y m d (r / 3600) (r mod 3600 / 60) (r mod 60).

(** pandas counts the nanoseconds from 1 January 1970 in 64 bits, the
    least of the numbers standing for [NaT]: the whole seconds it holds
    run from 1677-09-21 00:12:44 to 2262-04-11 23:47:16. *)
Definition min_seconds : Z :=
  Eval vm_compute in to_seconds (mkTimestamp 1677 9 21 0 12 44).

Definition max_seconds : Z :=
  Eval vm_compute in to_seconds (mkTimestamp 2262 4 11 23 47 16).

Definition in_bounds (t : Timestamp) : bool :=
  (min_seconds <=? to_seconds t) && (to_seconds t <=? max_seconds).

(** A [Timestamp]: a date of the calendar and a time of day that the
    clock holds. *)
Definition well_formed (t : Timestamp) : bool :=
  valid_date (year t) (month t) (day t)
  && valid_time (hour t) (minute t) (second t)
  && in_bounds t.

(** [int(t.strftime('%j'))] as a number. *)
Definition dayofyear (t : Timestamp) : Z :=
  day_of_year (year t) (month t) (day t).

(** The first and the last day of year [y] whose midnight the clock
    holds: 22 September in 1677, 11 April in 2262. *)
Definition first_day (y : Z) : Z := if y =? 1677 then 265 else 1.

Definition last_day (y : Z) : Z :=
  if y =? 2262 then 101 else days_in_year y.

(** *** Parsing with a format

    The format is compiled to a regular expression, directive by
    directive; each directive is an ordered choice between fixed-length
    alternatives, and white space in the format stands for [\s+]. *)

Definition cls := ascii -> bool.

Definition one (c : ascii) : cls := Ascii.eqb c.

(** [\s], which is also [str.isspace]: the white space of [int] and the
    four separators with codes 28 to 31. *)
Definition re_space (c : ascii) : bool :=
  is_space c || ((28 <=? code c) && (code c <=? 31)).

Definition alternatives (d : ascii) : list (list cls) :=
  match d with
  | "d"%char =>
      [ [one "3"; in_range "0" "1"]; [in_range "1" "2"; is_digit];
        [one "0"; in_range "1" "9"]; [in_range "1" "9"];
        [one " "; in_range "1" "9"] ]
  | "H"%char =>
      [ [one "2"; in_range "0" "3"]; [in_range "0" "1"; is_digit];
        [is_digit] ]
  | "j"%char =>
      [ [one "3"; one "6"; in_range "0" "6"];
        [one "3"; in_range "0" "5"; is_digit];
        [in_range "1" "2"; is_digit; is_digit];
        [one "0"; in_range "1" "9"; is_digit];
        [one "0"; one "0"; in_range "1" "9"];
        [in_range "1" "9"; is_digit];
        [one "0"; in_range "1" "9"];
        [in_range "1" "9"] ]
  | "m"%char =>
      [ [one "1"; in_range "0" "2"]; [one "0"; in_range "1" "9"];
        [in_range "1" "9"] ]
  | "M"%char => [ [in_range "0" "5"; is_digit]; [is_digit] ]
  | "S"%char =>
      [ [one "6"; in_range "0" "1"]; [in_range "0" "5"; is_digit];
        [is_digit] ]
  | "Y"%char => [ [is_digit; is_digit; is_digit; is_digit] ]
  | _ => []
  end.

Inductive item :=
| Lit (c : ascii)
| Spaces
| Dir (d : ascii).

Fixpoint compile (format : string) : list item :=
  match format with
  | EmptyString => []
  | String "%" (String d r) => Dir d :: compile r
  | String c r =>
      if re_space c then
        match compile r with
        | Spaces :: l => Spaces :: l
        | l => Spaces :: l
        end
      else Lit c :: compile r
  end.

(** The text matched by a sequence of character classes, and the rest. *)
Fixpoint match_classes (cs : list cls) (s : string)
    : option (string * string) :=
  match cs with
  | [] => Some (EmptyString, s)
  | c :: cs' =>
      match s with
      | String a s' =>
          if c a then
            match match_classes cs' s' with
            | Some (t, r) => Some (String a t, r)
            | None => None
            end
          else None
      | EmptyString => None
      end
  end.

(** Ordered choice: the first alternative after which the rest of the
    expression, [k], matches too. *)
Fixpoint try_alts {R} (alts : list (list cls))
    (k : string -> string -> option R) (s : string) : option R :=
  match alts with
  | [] => None
  | alt :: alts' =>
      match
        match match_classes alt s with
        | Some (t, r) => k t r
        | None => None
        end
      with
      | Some x => Some x
      | None => try_alts alts' k s
      end
  end.

(** [\s+], greedy. *)
Fixpoint spaces_plus {R} (k : string -> option R) (s : string) : option R :=
  match s with
  | String a s' =>
      if re_space a then
        match spaces_plus k s' with
        | Some x => Some x
        | None => k s'
        end
      else None
  | EmptyString => None
  end.

(** The fields a match fills in, with the defaults of [strptime]. *)
Record found := mkFound {
  f_year : Z; f_month : Z; f_day : Z;
  f_hour : Z; f_minute : Z; f_second : Z;
  f_julian : option Z
}.

Definition found0 : found := mkFound 1900 1 1 0 0 0 None.

Definition set_field (d : ascii) (v : Z) (f : found) : found :=
  let '(mkFound y m dd h mi s j) := f in
  match d with
  | "Y"%char => mkFound v m dd h mi s j
  | "m"%char => mkFound y v dd h mi s j
  | "d"%char => mkFound y m v h mi s j
  | "H"%char => mkFound y m dd v mi s j
  | "M"%char => mkFound y m dd h v s j
  | "S"%char => mkFound y m dd h mi v j
  | "j"%char => mkFound y m dd h mi s (Some v)
  | _ => f
  end.

(** [format_regex.match(val)]: the fields and what is left of [s]. *)
Fixpoint re_match (its : list item) (s : string) (f : found)
    : option (found * string) :=
  match its with
  | [] => Some (f, s)
  | Lit c :: its' =>
      match s with
      | String a s' => if Ascii.eqb a c then re_match its' s' f else None
      | EmptyString => None
      end
  | Spaces :: its' => spaces_plus (fun r => re_match its' r f) s
  | Dir d :: its' =>
      try_alts (alternatives d)
        (fun t r =>
           match int_opt t with
           | Some v => re_match its' r (set_field d v f)
           | None => None
           end) s
  end.

(** The hours, minutes and seconds the expressions of [%H], [%M] and [%S]
    read: a second may be 60 or 61. *)
Definition read_time (h mi s : Z) : bool :=
  (0 <=? h) && (h <=? 23) && (0 <=? mi) && (mi <=? 59)
  && (0 <=? s) && (s <=? 61).

(** The order in which two lists of fields are compared. *)
Fixpoint lex_lt (a b : list Z) : bool :=
  match a, b with
  | x :: a', y :: b' => (x <? y) || ((x =? y) && lex_lt a' b')
  | _, _ => false
  end.

Definition fields (t : Timestamp) : list Z :=
  [year t; month t; day t; hour t; minute t; second t].

(** [check_dts_bounds]: the fields as they were read, before a second of
    60 is carried, lie between 1677-09-21 00:12:43.145224193 and
    2262-04-11 23:47:16.854775807, field by field. *)
Definition check_dts_bounds (t : Timestamp) : bool :=
  lex_lt [1677; 9; 21; 0; 12; 43] (fields t)
  && negb (lex_lt [2262; 4; 11; 23; 47; 16] (fields t)).

(** The date a match denotes.  A day of the year, when given, decides
    month and day.  The fields must make a date of the calendar (the time
    of day is in range by the expressions that read it) and lie within
    the clock; the [Timestamp] is the number of seconds they add up to, so
    that a second of 60 or 61 runs into the next minute. *)
Definition build (f : found) : pyres Timestamp :=
  let '(y, m, d) :=
    match f_julian f with
    | Some j => date_of_year_day (f_year f) j
    | None => (f_year f, f_month f, f_day f)
    end in
  let dts := mkTimestamp y m d (f_hour f) (f_minute f) (f_second f) in
  if valid_date y m d && read_time (f_hour f) (f_minute f) (f_second f)
     && check_dts_bounds dts
  then Val (of_seconds (to_seconds dts))
  else Raise ValueError.

(** The whole of [s] must match. *)
Definition strptime (s format : string) : pyres Timestamp :=
  match re_match (compile format) s found0 with
  | Some (f, EmptyString) => build f
  | _ => Raise ValueError
  end.

(** The strings [to_datetime] reads as a missing date. *)
Definition nat_strings : list string :=
  ["NaT"; "nat"; "NAT"; "nan"; "NaN"; "NAN"].

Definition is_nat_string (s : string) : bool :=
  existsb (String.eqb s) nat_strings.

(** [to_datetime(arg, format=format)] for a scalar [arg]: [None] stays
    [None], a boolean is no date, and a string is parsed with the format
    unless it is a missing date. *)
Definition to_datetime (arg : pyval) (format : string) : pyres date_value :=
  match arg with
  | PNone => Val DNone
  | PBool _ => Raise TypeError
  | PStr s =>
      if is_nat_string s then Val NaT else map_res TS (strptime s format)
  end.

(** *** Formatting

    [strftime] hands the pattern to the C library.  The directives
    tabulated here are the numeric ones and, as the C locale writes them,
    the names of months and days and the half of the day; [tabulated]
    tells the patterns made of these.  What the C library makes of any
    other directive is not tabulated: the embedding copies it as it
    stands, and no statement below is about such a pattern. *)

Definition month_names : list string :=
  ["January"; "February"; "March"; "April"; "May"; "June"; "July";
   "August"; "September"; "October"; "November"; "December"].

Definition day_names : list string :=
  ["Monday"; "Tuesday"; "Wednesday"; "Thursday"; "Friday"; "Saturday";
   "Sunday"].

(** [t.weekday()]: Monday is 0; 1 January of year 1 is a Monday. *)
Definition weekday (t : Timestamp) : Z :=
  (toordinal (year t) (month t) (day t) + 6) mod 7.

Definition name_of (names : list string) (i : Z) : string :=
  nth (Z.to_nat i) names EmptyString.

Definition directive (d : ascii) (t : Timestamp) : string :=
  match d with
  | "Y"%char => zero_pad 4 (year t)
  | "m"%char => zero_pad 2 (month t)
  | "d"%char => zero_pad 2 (day t)
  | "H"%char => zero_pad 2 (hour t)
  | "I"%char => zero_pad 2 ((hour t + 11) mod 12 + 1)
  | "M"%char => zero_pad 2 (minute t)
  | "S"%char => zero_pad 2 (second t)
  | "j"%char => zero_pad 3 (dayofyear t)
  | "y"%char => zero_pad 2 (year t mod 100)
  | "p"%char => if hour t <? 12 then "AM" else "PM"
  | "a"%char => substring 0 3 (name_of day_names (weekday t))
  | "A"%char => name_of day_names (weekday t)
  | "b"%char => substring 0 3 (name_of month_names (month t - 1))
  | "B"%char => name_of month_names (month t - 1)
  | "%"%char => "%"
  | _ => String "%" (String d EmptyString)
  end.

Definition tabulated_directive (d : ascii) : bool :=
  existsb (Ascii.eqb d) (list_ascii_of_string "YmdHIMSjypaAbB%").

(** The patterns whose every directive is tabulated; the character of
    code 0, at which the C library stops, is left out as well. *)
Fixpoint tabulated (p : string) : bool :=
  match p with
  | EmptyString => true
  | String "%" EmptyString => false
  | String "%" (String d r) => tabulated_directive d && tabulated r
  | String c r => negb (code c =? 0) && tabulated r
  end.

Fixpoint format_with (t : Timestamp) (p : string) : string :=
  match p with
  | EmptyString => EmptyString
  | String "%" (String d r) => directive d t +:+ format_with t r
  | String c r => String c (format_with t r)
  end.

(** [d.strftime(p)]: [None] has no such method, [NaT] refuses it, and the
    pattern must be a string. *)
Definition strftime (d : date_value) (p : pyval) : pyres string :=
  match d with
  | DNone => Raise AttributeError
  | NaT => Raise ValueError
  | TS t =>
      match p with
      | PStr p => Val (format_with t p)
      | _ => Raise TypeError
      end
  end.

(** *** Ranges of dates *)

(** The frequencies tabulated here: a fixed number of seconds, the ends of
    months and the ends of years. *)
Inductive offset :=
| Tick (n unit_seconds : Z)
| MonthEnd (n : Z)
| YearEnd (n : Z).

Fixpoint all_spaces (s : string) : bool :=
  match s with
  | EmptyString => true
  | String c s' => re_space c && all_spaces s'
  end.

(** [s] is [name], followed by white space only. *)
Fixpoint reads (name s : string) : bool :=
  match name, s with
  | EmptyString, _ => all_spaces s
  | String a name', String c s' => Ascii.eqb a c && reads name' s'
  | String _ _, EmptyString => false
  end.

Definition alias (s : string) : option (Z -> offset) :=
  if existsb (fun a => reads a s) ["D"; "d"]
  then Some (fun n => Tick n 86400)
  else if existsb (fun a => reads a s) ["H"; "h"]
  then Some (fun n => Tick n 3600)
  else if existsb (fun a => reads a s) ["T"; "t"; "min"]
  then Some (fun n => Tick n 60)
  else if existsb (fun a => reads a s) ["S"; "s"]
  then Some (fun n => Tick n 1)
  else if existsb (fun a => reads a s) ["M"; "m"] then Some MonthEnd
  else if existsb (fun a => reads a s) ["Y"; "y"; "A"; "a"]
  then Some YearEnd
  else None.

Fixpoint skip_spaces (s : string) : string :=
  match s with
  | String c s' => if re_space c then skip_spaces s' else s
  | EmptyString => EmptyString
  end.

(** The digits a frequency string starts with, and the rest. *)
Fixpoint span_digits (s : string) : string * string :=
  match s with
  | String c s' =>
      if is_digit c then let '(ds, r) := span_digits s' in (String c ds, r)
      else (EmptyString, s)
  | EmptyString => (EmptyString, EmptyString)
  end.

(** The multiple of a frequency is kept in 64 bits. *)
Definition fits_int64 (n : Z) : bool :=
  (- 2 ^ 63 <=? n) && (n <? 2 ^ 63).

(** [to_offset(freq)] for a string of the form: white space, a sign, a
    whole stride (1 when stride and sign are left out), white space, one
    alias from the table, white space.  A stride that does not fit 64
    bits is an [OverflowError].  Fractional strides, sums of frequencies
    and the other aliases of pandas ([W], [MS], [Q], ...) are not
    tabulated: the embedding answers them like a string that is no
    frequency, and no statement below is about such a period, nor about a
    stride of [2^53] or more, which pandas rounds to a double first. *)
Definition to_offset (freq : string) : pyres offset :=
  let s := skip_spaces freq in
  let '(sign, signed, body) :=
    match s with
    | String c r =>
        if Ascii.eqb c "-" then (-1, true, r)
        else if Ascii.eqb c "+" then (1, true, r)
        else (1, false, s)
    | EmptyString => (1, false, s)
    end in
  let '(ds, r) := span_digits body in
  let stride :=
    match ds with
    | EmptyString => if signed : bool then None else Some 1
    | _ => int_opt ds
    end in
  match stride, alias (skip_spaces r) with
  | Some n, Some mk =>
      if fits_int64 (sign * n) then Val (mk (sign * n))
      else Raise OverflowError
  | _, _ => Raise ValueError
  end.

(** The last day of month number [mi], months being counted from January
    of year 0, at the time of day of [t]. *)
Definition month_end (mi : Z) (t : Timestamp) : Timestamp :=
  let y := mi / 12 in
  let m := mi mod 12 + 1 in
  mkTimestamp y m (days_in_month y m) (hour t) (minute t) (second t).

Definition month_index (t : Timestamp) : Z := year t * 12 + (month t - 1).

(** [generate_range] for the ends of months ([every] is 1) or of years
    ([every] is 12, the ends being those of December), [step] months
    apart.  The start is rolled forward onto the frequency; when it is on
    it already, the end is rolled back.  With a [step] that is not
    negative, an end before the start leaves no point, or the start alone
    when [step] is zero; a zero [step] cannot move on from a start before
    the end. *)
Definition month_steps (every step : Z) (s e : Timestamp)
    : pyres (list Timestamp) :=
  let on t := ((month_index t + 1) mod every =? 0)
              && (day t =? days_in_month (year t) (month t)) in
  let forward mi := mi + (every - 1 - mi mod every) in
  let back mi := mi - 1 - (mi mod every) in
  let first := forward (month_index s) in
  let start := month_end first s in
  let end_ := if on s then (if on e then e
                            else month_end (back (month_index e)) e)
              else e in
  let point k := month_end (first + k * step) s in
  if step =? 0 then
    if to_seconds end_ <=? to_seconds start then Val [start]
    else Raise ValueError
  else
    let reach := (month_index end_ - first) / step in
    Val (List.filter
           (fun t => if 0 <? step then to_seconds t <=? to_seconds end_
                     else to_seconds end_ <=? to_seconds t)
           (point <$> seqZ 0 (reach + 1))).

(** [generate_regular_range] for a fixed stride: the points
    [s + k * stride] up to [e].  The arithmetic of pandas is on
    nanoseconds in 64 bits; it is exact as long as the stride and the end
    date plus one stride stay within the clock, the only case the
    statements below are about. *)
Definition range_of (o : offset) (s e : Timestamp) : pyres (list Timestamp) :=
  match o with
  | Tick n u =>
      let stride := n * u in
      if stride =? 0 then Raise ZeroDivisionError
      else
        let b := to_seconds s in
        let q := (to_seconds e - b) / stride in
        Val ((fun k => of_seconds (b + k * stride)) <$> seqZ 0 (q + 1))
  | MonthEnd n => month_steps 1 n s e
  | YearEnd n => month_steps 12 (12 * n) s e
  end.

(** [date_range(start=..., end=..., freq=...)].  A missing frequency is
    daily.  Start and end must both be given, which is looked at before
    the frequency is read, and be dates, which is looked at after. *)
Definition date_range (start end_ : date_value) (freq : pyval)
    : pyres (list date_value) :=
  match start, end_ with
  | DNone, _ | _, DNone => Raise ValueError
  | _, _ =>
      o <~ match freq with
           | PNone => Val (Tick 1 86400)
           | PBool _ => Raise ValueError
           | PStr f => to_offset f
           end;;
      match start, end_ with
      | TS s, TS e =>
          l <~ range_of o s e;;
          Val (TS <$> l)
      | _, _ => Raise ValueError
      end
  end.

End Pandas.

(** ** The plugin *)

Module DateTimeFilter.
Import Py Calendar Pandas.

(** The one exception the plugin raises, told apart by its message. *)
Inductive GeoEDFError :=
| RequiredParameterNotProvided (param : string)
    (* 'Required parameter %s for DateTimeFilter not provided' *)
| PeriodRequired
    (* 'Period is required for DateTimeFilter when both start and end
       are provided.' *)
| InvalidStartOrEnd (with_detail : bool)
    (* 'Invalid values provided for start or end date to DateTimeFilter',
       followed by the ValueError when there is one *)
| ErrorApplying
    (* 'Error applying DateTimeFilter : %s' *)
| UnknownErrorApplying.
    (* 'Unknown error applying DateTimeFilter' *)

Definition __optional_params : list string :=
  ["end"; "period"; "has_time"; "exact_dates"].

Definition __required_params : list string := ["pattern"; "start"].

(** The attributes of an instance. *)
Record DateTimeFilter := mkDateTimeFilter {
  provided_params : list string;
  pattern : pyval;
  start : pyval;
  end_ : pyval;
  period : pyval;
  has_time : pyval;
  exact_dates : pyval;
  values : list string
}.

Definition set_values (self : DateTimeFilter) (vs : list string)
    : DateTimeFilter :=
  mkDateTimeFilter (provided_params self) (pattern self) (start self)
    (end_ self) (period self) (has_time self) (exact_dates self) vs.

(** [key in kwargs] *)
Definition contains (kwargs : gmap string pyval) (key : string) : bool :=
  bool_decide (is_Some (kwargs !! key)).

(** [kwargs.get(key, None)] *)
Definition get (kwargs : gmap string pyval) (key : string) : pyval :=
  default PNone (kwargs !! key).

(** [if v is None: v = False] *)
Definition or_False (v : pyval) : pyval :=
  match v with
  | PNone => PBool false
  | _ => v
  end.

(** The constructor, applied to its keyword arguments: the error it
    raises, or the instance.  The constructor of the framework's plugin
    class, called last, builds the dependency graph of the host from
    [provided_params]; it is not part of this repository and leaves the
    attributes below as they are. *)
Definition __init__ (kwargs : gmap string pyval)
    : GeoEDFError + DateTimeFilter :=
  match List.find (fun param => negb (contains kwargs param))
          __required_params with
  | Some param => inl (RequiredParameterNotProvided param)
  | None =>
      if contains kwargs "end" && negb (contains kwargs "period")
      then inl PeriodRequired
      else
        inr {| provided_params := __required_params ++ __optional_params;
               pattern := get kwargs "pattern";
               start := get kwargs "start";
               end_ := get kwargs "end";
               period := get kwargs "period";
               has_time := or_False (get kwargs "has_time");
               exact_dates := or_False (get kwargs "exact_dates");
               values := [] |}
  end.

(** The first [try] block of [filter]: the start date, and the end date
    when [self.end] is not [None]. *)
Definition parse_dates (self : DateTimeFilter)
    : pyres (date_value * option date_value) :=
  start_date <~
    (if truthy (has_time self)
     then to_datetime (start self) "%m/%d/%Y %H:%M:%S"
     else to_datetime (start self) "%m/%d/%Y");;
  if is_not_None (end_ self) then
    end_date <~
      (if truthy (has_time self)
       then to_datetime (end_ self) "%m/%d/%Y %H:%M:%S"
       else to_datetime (end_ self) "%m/%d/%Y");;
    Val (start_date, Some end_date)
  else Val (start_date, None).

(** [(not self.exact_dates) and (self.period[-1:] == 'D')] *)
Definition aligns (self : DateTimeFilter) : pyres bool :=
  if negb (truthy (exact_dates self)) then
    unit <~ subscript slice_last (period self);;
    Val (String.eqb unit "D")
  else Val false.

(** The start date of the enumeration: the start date itself, or the next
    day of its year that is a whole number of periods after 1 January. *)
Definition align_start (self : DateTimeFilter) (start_date : date_value)
    : pyres date_value :=
  go <~ aligns self;;
  if go : bool then
    start_year <~ strftime start_date (PStr "%Y");;
    start_day_of_year <~ (j <~ strftime start_date (PStr "%j");; int j);;
    period_num <~ (n <~ subscript slice_init (period self);; int n);;
    remainder <~ mod_ (start_day_of_year - 1) period_num;;
    if 0 <? remainder then
      let new_start_day_of_year :=
        ceil_truediv (start_day_of_year - 1) period_num * period_num + 1 in
      to_datetime
        (PStr (format_d new_start_day_of_year +:+ "/" +:+ start_year))
        "%j/%Y"
    else Val start_date
  else Val start_date.

(** [date_range(...)] when there is an end date (that is, when
    [self.end] is not [None]), the start date alone otherwise. *)
Definition all_dates (self : DateTimeFilter) (start_date : date_value)
    (end_date : option date_value) : pyres (list date_value) :=
  match end_date with
  | Some end_date => date_range start_date end_date (period self)
  | None => Val [start_date]
  end.

(** [for dt in all_dates: self.values.append(dt.strftime(self.pattern))] *)
Fixpoint append_formatted (pattern : pyval) (dates : list date_value)
    (values : list string) : pyres (list string) :=
  match dates with
  | [] => Val values
  | dt :: dates' =>
      s <~ strftime dt pattern;;
      append_formatted pattern dates' (values ++ [s])
  end.

(** The second [try] block of [filter]; the result is [self.values]. *)
Definition generate (self : DateTimeFilter) (start_date : date_value)
    (end_date : option date_value) : pyres (list string) :=
  start_date <~ align_start self start_date;;
  dates <~ all_dates self start_date end_date;;
  append_formatted (pattern self) dates (values self).

(** [self.filter()]: the error raised, or the instance afterwards.  (When
    [filter] raises, nothing has been appended yet: [strftime] raises on
    the first date or on none.) *)
Definition filter (self : DateTimeFilter) : GeoEDFError + DateTimeFilter :=
  match parse_dates self with
  | Raise ValueError => inl (InvalidStartOrEnd true)
  | Raise _ => inl (InvalidStartOrEnd false)
  | Val (start_date, end_date) =>
      match generate self start_date end_date with
      | Raise ValueError => inl ErrorApplying
      | Raise _ => inl UnknownErrorApplying
      | Val vs => inr (set_values self vs)
      end
  end.

(** Construction followed by one call of [filter]: the values produced. *)
Definition run (kwargs : gmap string pyval) : GeoEDFError + list string :=
  match __init__ kwargs with
  | inl e => inl e
  | inr self =>
      match filter self with
      | inl e => inl e
      | inr self' => inr (values self')
      end
  end.

End DateTimeFilter.

Import Py Calendar Pandas DateTimeFilter.

(** ** Configurations used in the statements below *)

(** Keyword arguments, as a dictionary. *)
Definition kw (l : list (string * pyval)) : gmap string pyval := list_to_map l.

(** Midnight of a day. *)
Definition date (y m d : Z) : Timestamp := mkTimestamp y m d 0 0 0.

(** An instance as [__init__] leaves it, flags given as booleans. *)
Definition instance (pattern start end_ period : pyval)
    (has_time exact_dates : bool) : DateTimeFilter :=
  mkDateTimeFilter (__required_params ++ __optional_params) pattern start end_
    period (PBool has_time) (PBool exact_dates) [].

(** The format [has_time] selects in [parse_dates]. *)
Definition date_format (self : DateTimeFilter) : string :=
  if truthy (has_time self) then "%m/%d/%Y %H:%M:%S" else "%m/%d/%Y".

(** The error [filter] raises for an exception of its second [try] block. *)
Definition raised (x : exn) : GeoEDFError :=
  match x with
  | ValueError => ErrorApplying
  | _ => UnknownErrorApplying
  end.

Definition every_third_day : DateTimeFilter :=
  instance (PStr "%Y-%m-%d") (PStr "01/08/2020") PNone (PStr "3D") false false.

Definition every_fifth_day : DateTimeFilter :=
  instance (PStr "%j") (PStr "01/07/2021") PNone (PStr "5D") false false.

Definition every_hundredth_day : DateTimeFilter :=
  instance (PStr "%Y-%m-%d") (PStr "12/30/2020") PNone (PStr "100D") false false.

Definition every_zeroth_day : DateTimeFilter :=
  instance (PStr "%Y-%m-%d") (PStr "01/01/2020") PNone (PStr "0D") false false.

Definition start_only : DateTimeFilter :=
  instance (PStr "%Y-%m-%d") (PStr "01/01/2020") PNone PNone false false.

Definition exact_start_only : DateTimeFilter :=
  instance (PStr "%Y-%m-%d") (PStr "01/01/2020") PNone PNone false true.


Definition lowercase_fifth_day : DateTimeFilter :=
  instance (PStr "%Y-%m-%d") (PStr "01/07/2020") (PStr "01/20/2020")
    (PStr "5d") false false.

Definition month_13 : DateTimeFilter :=
  instance (PStr "%Y-%m-%d") (PStr "13/45/2020") PNone PNone false true.

Definition bad_magnitude : DateTimeFilter :=
  instance (PStr "%Y-%m-%d") (PStr "01/07/2020") PNone (PStr "xD") false false.

Definition end_but_no_period : gmap string pyval :=
  kw [("pattern", PStr "%Y"); ("start", PStr "13/45/2020");
      ("end", PStr "tomorrow")].

(** A string of decimal digits. *)
Fixpoint all_digits (s : string) : bool :=
  match s with
  | EmptyString => true
  | String c s' => is_digit c && all_digits s'
  end.

(** [k] times the digit 0. *)
Definition zeros (k : nat) : string := string_of_list_ascii (repeat "0"%char k).

Definition late_fifth_day : DateTimeFilter :=
  instance (PStr "%Y-%m-%d") (PStr "12/30/2021") PNone (PStr "5D") false false.

Definition backward_fifth_day : DateTimeFilter :=
  instance (PStr "%Y-%m-%d") (PStr "01/07/2020") PNone (PStr "-5D") false false.

(** A magnitude of 325 digits, [10 ** 324]. *)
Definition beyond_float_range : DateTimeFilter :=
  instance (PStr "%Y-%m-%d") (PStr "01/03/2020") PNone
    (PStr (String "1" (zeros 324) +:+ "D")) false false.

Definition aligned_past_the_end : DateTimeFilter :=
  instance (PStr "%Y-%m-%d") (PStr "01/07/2020") (PStr "01/10/2020")
    (PStr "5D") false false.

Definition first_to_eleventh : DateTimeFilter :=
  instance (PStr "%Y-%m-%d") (PStr "01/01/2020") (PStr "01/11/2020")
    (PStr "5D") false false.

Definition timed_start : gmap string pyval :=
  kw [("pattern", PStr "%H:%M"); ("start", PStr "01/01/2020 10:30:00");
      ("has_time", PBool true)].

Definition no_start : DateTimeFilter :=
  instance (PStr "%Y-%m-%d") PNone PNone (PStr "5D") false false.

(** The letters frequency names are written in. *)
Definition is_letter (c : ascii) : bool :=
  in_range "A" "Z" c || in_range "a" "z" c.

Fixpoint has_letter (s : string) : bool :=
  match s with
  | EmptyString => false
  | String c s' => is_letter c || has_letter s'
  end.

(** A stride of [x] seconds, counted forward, that pandas' arithmetic on
    64 bits of nanoseconds holds, as it holds the end date [e] moved on by
    one stride. *)
Definition stride_fits (x : Z) (e : Timestamp) : bool :=
  (0 <? x) && (x <=? 2 ^ 63 / 10 ^ 9) && (to_seconds e + x <=? max_seconds).

Definition february_30 : DateTimeFilter :=
  instance (PStr "%Y-%m-%d") (PStr "02/30/2020") PNone PNone false true.

Definition bare_number_period : DateTimeFilter :=
  instance (PStr "%Y-%m-%d") (PStr "01/07/2020") (PStr "01/20/2020")
    (PStr "5") false false.

Definition unknown_unit_period : DateTimeFilter :=
  instance (PStr "%Y-%m-%d") (PStr "01/07/2020") (PStr "01/20/2020")
    (PStr "5X") false false.

Definition lowercase_no_magnitude : DateTimeFilter :=
  instance (PStr "%Y-%m-%d") (PStr "01/07/2020") (PStr "01/20/2020")
    (PStr "xd") false false.

Definition end_of_the_clock : DateTimeFilter :=
  instance (PStr "%Y-%m-%d") (PStr "04/10/2262") PNone (PStr "7D") false false.

Definition last_year_of_the_clock : DateTimeFilter :=
  instance (PStr "%Y-%m-%d") (PStr "01/02/2262") PNone (PStr "365D")
    false false.

(** Case analysis on a digit [k], for goals that compute on each. *)
Ltac by_digit k H :=
  let D := fresh "D" in
  assert (D : k = 0 \/ k = 1 \/ k = 2 \/ k = 3 \/ k = 4 \/ k = 5 \/ k = 6
              \/ k = 7 \/ k = 8 \/ k = 9) by lia;
  destruct D as [->|[->|[->|[->|[->|[->|[->|[->|[->| ->]]]]]]]]];
  reflexivity.

(** ** Facts about the Python layer *)

Section PyFacts.

Lemma append_cons (c : ascii) (s t : string) :
  String c s +:+ t = String c (s +:+ t).
Proof. reflexivity. Qed.

Lemma append_empty (s : string) : s +:+ "" = s.
Proof.
  induction s as [|c s IH]; [reflexivity|].
  now rewrite append_cons, IH.
Qed.

Lemma slice_last_app (p : string) (c : ascii) :
  slice_last (p +:+ String c "") = String c "".
Proof.
  induction p as [|a p IH]; [reflexivity|].
  rewrite append_cons. simpl.
  destruct (p +:+ String c "") eqn:E; [|exact IH].
  destruct p; discriminate E.
Qed.

Lemma slice_init_app (p : string) (c : ascii) :
  slice_init (p +:+ String c "") = p.
Proof.
  induction p as [|a p IH]; [reflexivity|].
  rewrite append_cons. simpl.
  destruct (p +:+ String c "") eqn:E.
  - destruct p; discriminate E.
  - now rewrite IH.
Qed.

Lemma slice_last_lowercase (p : string) : slice_last (p +:+ "d") <> "D".
Proof. rewrite slice_last_app. discriminate. Qed.

(** A property checked on every number of a range holds on the range. *)
Lemma forallb_seqZ (P : Z -> bool) (lo n : Z) :
  forallb P (seqZ lo n) = true -> forall j, lo <= j < lo + n -> P j = true.
Proof.
  intros H j Hj. rewrite forallb_forall in H. apply H.
  apply list_elem_of_In, elem_of_seqZ. lia.
Qed.

(** [int] reads back what ['%d'] and [strftime] write. *)
Lemma int_format_d_366 (j : Z) :
  1 <= j <= 366 -> int_opt (format_d j) = Some j.
Proof.
  intros Hj.
  assert (H : forallb (fun j => bool_decide (int_opt (format_d j) = Some j))
                (seqZ 1 366) = true) by (vm_compute; reflexivity).
  exact (bool_decide_eq_true_1 _ (forallb_seqZ _ _ _ H j ltac:(lia))).
Qed.

Lemma int_zero_pad_3 (j : Z) :
  1 <= j <= 366 -> int_opt (zero_pad 3 j) = Some j.
Proof.
  intros Hj.
  assert (H : forallb (fun j => bool_decide (int_opt (zero_pad 3 j) = Some j))
                (seqZ 1 366) = true) by (vm_compute; reflexivity).
  exact (bool_decide_eq_true_1 _ (forallb_seqZ _ _ _ H j ltac:(lia))).
Qed.

(** The characters of the digits. *)
Lemma is_space_digit_char (k : Z) :
  0 <= k <= 9 -> is_space (digit_char k) = false.
Proof. intros H. by_digit k H. Qed.

Lemma is_digit_digit_char (k : Z) :
  0 <= k <= 9 -> is_digit (digit_char k) = true.
Proof. intros H. by_digit k H. Qed.

Lemma code_digit_char (k : Z) :
  0 <= k <= 9 -> code (digit_char k) - 48 = k.
Proof. intros H. by_digit k H. Qed.

Lemma mod_10_digit (k : Z) : 0 <= k mod 10 <= 9.
Proof. pose proof (Z.mod_pos_bound k 10 ltac:(lia)). lia. Qed.

(** The four digits of a year. *)
Lemma zero_pad_4 (y : Z) :
  0 <= y <= 9999 ->
  zero_pad 4 y =
    String (digit_char (y / 10 / 10 / 10 mod 10))
      (String (digit_char (y / 10 / 10 mod 10))
         (String (digit_char (y / 10 mod 10))
            (String (digit_char (y mod 10)) ""))).
Proof.
  intros Hy. unfold zero_pad. cbn [pad_digits].
  replace (y / 10 / 10 / 10 / 10 =? 0) with true; [reflexivity|].
  symmetry. apply Z.eqb_eq.
  rewrite !Z.div_div by lia. apply Z.div_small. lia.
Qed.

Lemma int_opt_4_digits (a b c d : Z) :
  0 <= a <= 9 -> 0 <= b <= 9 -> 0 <= c <= 9 -> 0 <= d <= 9 ->
  int_opt (String (digit_char a) (String (digit_char b)
             (String (digit_char c) (String (digit_char d) ""))))
  = Some (10 * (10 * (10 * (10 * 0 + a) + b) + c) + d).
Proof.
  intros Ha Hb Hc Hd. unfold int_opt.
  replace (count_digits _) with 4
    by (cbn [count_digits];
        rewrite (is_digit_digit_char a Ha), (is_digit_digit_char b Hb),
          (is_digit_digit_char c Hc), (is_digit_digit_char d Hd);
        reflexivity).
  change (int_max_str_digits <? 4) with false. cbv iota. unfold strip.
  cbn [string_rev lstrip]. rewrite (is_space_digit_char d Hd).
  cbn [string_rev lstrip]. rewrite (is_space_digit_char a Ha).
  assert (E : forall r,
             match String (digit_char a) r with
             | String "+" r' => int_digits r' 0 false
             | String "-" r' => Z.opp <$> int_digits r' 0 false
             | t => int_digits t 0 false
             end = int_digits (String (digit_char a) r) 0 false).
  { intros r. by_digit a Ha. }
  rewrite E. cbn [int_digits].
  rewrite (is_digit_digit_char a Ha), (is_digit_digit_char b Hb),
    (is_digit_digit_char c Hc), (is_digit_digit_char d Hd).
  rewrite (code_digit_char a Ha), (code_digit_char b Hb),
    (code_digit_char c Hc), (code_digit_char d Hd).
  reflexivity.
Qed.

Lemma int_zero_pad_4 (y : Z) :
  1 <= y <= 9999 -> int_opt (zero_pad 4 y) = Some y.
Proof.
  intros Hy. rewrite zero_pad_4 by lia.
  rewrite int_opt_4_digits by apply mod_10_digit.
  f_equal. Z.div_mod_to_equations. lia.
Qed.

(** [ceiling a n] is the least [q] with [a <= q * n]. *)
Lemma ceiling_spec (a n : Z) :
  0 < n -> (ceiling a n - 1) * n < a <= ceiling a n * n.
Proof.
  intros Hn. unfold ceiling.
  pose proof (Z.div_mod (- a) n ltac:(lia)) as E.
  pose proof (Z.mod_pos_bound (- a) n Hn) as B.
  nia.
Qed.

(** On the periods that keep the new day within a year, the double
    quotient does not vanish and [math.ceil] is exact. *)
Lemma ceil_truediv_exact (a n : Z) :
  1 <= a -> 0 < n <= 366 -> ceil_truediv a n = ceiling a n.
Proof.
  intros Ha Hn. unfold ceil_truediv.
  assert (K : (366 <? 2 ^ 1075) = true) by (vm_compute; reflexivity).
  apply Z.ltb_lt in K.
  destruct (Z.leb_spec (a * 2 ^ 1075) n) as [L|L]; [|reflexivity].
  set (k := 2 ^ 1075) in *. nia.
Qed.

End PyFacts.

(** ** Facts about the calendar *)

Section CalendarFacts.

Lemma days_in_year_le (y : Z) : 365 <= days_in_year y <= 366.
Proof. unfold days_in_year. destruct (is_leap y); lia. Qed.

(** [month_day_of] inverts [days_before_month]. *)
Lemma month_day_of_spec (leap : bool) (j : Z) :
  1 <= j <= (if leap then 366 else 365) ->
  1 <= fst (month_day_of leap j) <= 12
  /\ 1 <= snd (month_day_of leap j)
          <= month_length leap (fst (month_day_of leap j))
  /\ days_before_month leap (fst (month_day_of leap j))
     + snd (month_day_of leap j) = j.
Proof.
  intros Hj. unfold month_day_of.
  destruct leap;
    repeat match goal with
           | |- context [?a <=? ?b] => destruct (Z.leb_spec a b)
           end; cbn; lia.
Qed.

Lemma month_day_of_days_before (leap : bool) (m d : Z) :
  1 <= m <= 12 -> 1 <= d <= month_length leap m ->
  month_day_of leap (days_before_month leap m + d) = (m, d).
Proof.
  intros Hm Hd.
  assert (M : m = 1 \/ m = 2 \/ m = 3 \/ m = 4 \/ m = 5 \/ m = 6 \/ m = 7
              \/ m = 8 \/ m = 9 \/ m = 10 \/ m = 11 \/ m = 12) by lia.
  unfold month_day_of.
  destruct leap;
    repeat (destruct M as [->|M]);
    try subst m; cbn in Hd |- *;
    repeat match goal with
           | |- context [?a <=? ?b] => destruct (Z.leb_spec a b); try lia
           end; f_equal; lia.
Qed.

Lemma valid_date_spec (y m d : Z) :
  valid_date y m d = true <->
  1 <= y <= 9999 /\ 1 <= m <= 12 /\ 1 <= d <= days_in_month y m.
Proof.
  unfold valid_date. rewrite !andb_true_iff, !Z.leb_le. lia.
Qed.

Lemma valid_time_spec (h mi s : Z) :
  valid_time h mi s = true <-> 0 <= h <= 23 /\ 0 <= mi <= 59 /\ 0 <= s <= 59.
Proof.
  unfold valid_time. rewrite !andb_true_iff, !Z.leb_le. lia.
Qed.

Lemma read_time_spec (h mi s : Z) :
  read_time h mi s = true <-> 0 <= h <= 23 /\ 0 <= mi <= 59 /\ 0 <= s <= 61.
Proof.
  unfold read_time. rewrite !andb_true_iff, !Z.leb_le. lia.
Qed.

Lemma day_of_year_bounds (y m d : Z) :
  valid_date y m d = true -> 1 <= day_of_year y m d <= days_in_year y.
Proof.
  rewrite valid_date_spec.
  unfold day_of_year, days_in_year, days_in_month.
  intros (_ & Hm & Hd).
  assert (M : m = 1 \/ m = 2 \/ m = 3 \/ m = 4 \/ m = 5 \/ m = 6 \/ m = 7
              \/ m = 8 \/ m = 9 \/ m = 10 \/ m = 11 \/ m = 12) by lia.
  destruct (is_leap y);
    repeat (destruct M as [M|M]; [rewrite M in *; cbn in *; lia|]);
    rewrite M in *; cbn in *; lia.
Qed.

Lemma is_leap_spec (y : Z) :
  is_leap y = true <-> (y mod 4 = 0 /\ (y mod 100 <> 0 \/ y mod 400 = 0)).
Proof.
  unfold is_leap.
  rewrite andb_true_iff, orb_true_iff, negb_true_iff, !Z.eqb_eq, Z.eqb_neq.
  reflexivity.
Qed.

Lemma days_before_year_succ (y : Z) :
  days_before_year (y + 1) = days_before_year y + days_in_year y.
Proof.
  unfold days_before_year, days_in_year.
  destruct (is_leap y) eqn:L.
  - apply is_leap_spec in L. Z.div_mod_to_equations. lia.
  - assert (L' : ~ (y mod 4 = 0 /\ (y mod 100 <> 0 \/ y mod 400 = 0)))
      by (rewrite <- is_leap_spec, L; discriminate).
    Z.div_mod_to_equations. lia.
Qed.

Lemma days_before_year_mono (y y' : Z) :
  y <= y' -> days_before_year y <= days_before_year y'.
Proof.
  intros H. unfold days_before_year. Z.div_mod_to_equations. lia.
Qed.

(** The ordinal of a date lies within its year. *)
Lemma toordinal_bounds (y m d : Z) :
  valid_date y m d = true ->
  days_before_year y + 1 <= toordinal y m d <= days_before_year (y + 1).
Proof.
  intros V. pose proof (day_of_year_bounds y m d V).
  rewrite days_before_year_succ. unfold toordinal. lia.
Qed.

Lemma fromordinal_days (y k : Z) :
  1 <= y -> 0 <= k < days_in_year y ->
  fromordinal (days_before_year y + k + 1)
  = let '(m, d) := month_day_of (is_leap y) (k + 1) in (y, m, d).
Proof.
  intros Hy Hk. unfold fromordinal, days_before_year.
  replace (365 * (y - 1) + (y - 1) / 4 - (y - 1) / 100 + (y - 1) / 400 + k + 1 - 1)
    with (365 * (y - 1) + (y - 1) / 4 - (y - 1) / 100 + (y - 1) / 400 + k) by lia.
  set (n0 := 365 * (y - 1) + (y - 1) / 4 - (y - 1) / 100 + (y - 1) / 400 + k).
  unfold days_in_year in Hk.
  destruct (is_leap y) eqn:L.
  - pose proof L as L0. apply is_leap_spec in L.
    destruct (Z.eq_dec k 365) as [->|Hk365].
    + assert (E : (n0 mod 146097 mod 36524 mod 1461 / 365 =? 4)
                  || (n0 mod 146097 / 36524 =? 4) = true).
      { apply orb_true_iff. rewrite !Z.eqb_eq. subst n0.
        Z.div_mod_to_equations. lia. }
      rewrite E. cbn. f_equal. f_equal. subst n0.
      Z.div_mod_to_equations. lia.
    + assert (E : (n0 mod 146097 mod 36524 mod 1461 / 365 =? 4)
                  || (n0 mod 146097 / 36524 =? 4) = false).
      { apply orb_false_iff. rewrite !Z.eqb_neq. subst n0.
        Z.div_mod_to_equations. lia. }
      rewrite E.
      assert (Y : n0 / 146097 * 400 + 1 + n0 mod 146097 / 36524 * 100
                  + n0 mod 146097 mod 36524 / 1461 * 4
                  + n0 mod 146097 mod 36524 mod 1461 / 365 = y).
      { subst n0. Z.div_mod_to_equations. lia. }
      assert (R : n0 mod 146097 mod 36524 mod 1461 mod 365 = k).
      { subst n0. Z.div_mod_to_equations. lia. }
      rewrite Y, R, L0. reflexivity.
  - assert (L' : ~ (y mod 4 = 0 /\ (y mod 100 <> 0 \/ y mod 400 = 0))).
    { rewrite <- is_leap_spec, L. discriminate. }
    assert (E : (n0 mod 146097 mod 36524 mod 1461 / 365 =? 4)
                || (n0 mod 146097 / 36524 =? 4) = false).
    { apply orb_false_iff. rewrite !Z.eqb_neq. subst n0.
      Z.div_mod_to_equations. lia. }
    rewrite E.
    assert (Y : n0 / 146097 * 400 + 1 + n0 mod 146097 / 36524 * 100
                + n0 mod 146097 mod 36524 / 1461 * 4
                + n0 mod 146097 mod 36524 mod 1461 / 365 = y).
    { subst n0. Z.div_mod_to_equations. lia. }
    assert (R : n0 mod 146097 mod 36524 mod 1461 mod 365 = k).
    { subst n0. Z.div_mod_to_equations. lia. }
    rewrite Y, R, L. reflexivity.
Qed.

(** A date is found again from its ordinal. *)
Lemma fromordinal_toordinal (y m d : Z) :
  valid_date y m d = true -> fromordinal (toordinal y m d) = (y, m, d).
Proof.
  intros V. pose proof (day_of_year_bounds y m d V) as B.
  apply valid_date_spec in V. destruct V as (Hy & Hm & Hd).
  unfold toordinal.
  replace (days_before_year y + day_of_year y m d)
    with (days_before_year y + (day_of_year y m d - 1) + 1) by lia.
  rewrite fromordinal_days by lia.
  replace (day_of_year y m d - 1 + 1) with (day_of_year y m d) by lia.
  unfold day_of_year.
  rewrite month_day_of_days_before by (unfold days_in_month in *; lia).
  reflexivity.
Qed.

(** Every day from 1 January of year 1 on is a date, found again from it. *)
Lemma toordinal_fromordinal (n : Z) :
  1 <= n ->
  let '(y, m, d) := fromordinal n in
  toordinal y m d = n /\ 1 <= y /\ 1 <= m <= 12 /\ 1 <= d <= days_in_month y m.
Proof.
  intros Hn. unfold fromordinal.
  set (n0 := n - 1).
  set (y := n0 / 146097 * 400 + 1 + n0 mod 146097 / 36524 * 100
            + n0 mod 146097 mod 36524 / 1461 * 4
            + n0 mod 146097 mod 36524 mod 1461 / 365).
  destruct ((n0 mod 146097 mod 36524 mod 1461 / 365 =? 4)
            || (n0 mod 146097 / 36524 =? 4)) eqn:E.
  - apply orb_true_iff in E. rewrite !Z.eqb_eq in E.
    assert (L : is_leap (y - 1) = true).
    { apply is_leap_spec. subst y n0. Z.div_mod_to_equations. lia. }
    unfold toordinal, day_of_year, days_before_year, days_in_month.
    rewrite L. cbn.
    subst y n0. Z.div_mod_to_equations. lia.
  - apply orb_false_iff in E. rewrite !Z.eqb_neq in E.
    set (r1 := n0 mod 146097 mod 36524 mod 1461 mod 365).
    pose proof (month_day_of_spec (is_leap y) (r1 + 1)) as S.
    destruct (month_day_of (is_leap y) (r1 + 1)) as [m d]. cbn [fst snd] in S.
    assert (R : 0 <= r1 < 365) by (subst r1; apply Z.mod_pos_bound; lia).
    assert (S' : 1 <= m <= 12 /\ 1 <= d <= month_length (is_leap y) m
                 /\ days_before_month (is_leap y) m + d = r1 + 1)
      by (apply S; destruct (is_leap y); lia).
    unfold toordinal, day_of_year, days_before_year, days_in_month.
    destruct S' as (Hm & Hd & ->).
    split; [|split; [|split; assumption]];
      subst r1 y n0; Z.div_mod_to_equations; lia.
Qed.

(** A date is found again from its count of seconds. *)
Lemma of_seconds_to_seconds (t : Timestamp) :
  valid_date (year t) (month t) (day t) = true ->
  valid_time (hour t) (minute t) (second t) = true ->
  of_seconds (to_seconds t) = t.
Proof.
  intros V T. apply valid_time_spec in T.
  destruct t as [y m d h mi s]. cbn [year month day hour minute second] in *.
  unfold of_seconds, to_seconds. cbn [year month day hour minute second].
  set (o := toordinal y m d).
  replace (((o - 1) * 86400 + h * 3600 + mi * 60 + s) / 86400 + 1) with o
    by (Z.div_mod_to_equations; lia).
  subst o. rewrite (fromordinal_toordinal y m d V).
  f_equal; Z.div_mod_to_equations; lia.
Qed.

Lemma to_seconds_of_seconds (x : Z) :
  0 <= x -> to_seconds (of_seconds x) = x.
Proof.
  intros Hx. unfold of_seconds.
  pose proof (toordinal_fromordinal (x / 86400 + 1)) as O.
  destruct (fromordinal (x / 86400 + 1)) as [[y m] d].
  destruct O as [O _]; [Z.div_mod_to_equations; lia|].
  unfold to_seconds. cbn [year month day hour minute second]. rewrite O.
  Z.div_mod_to_equations. lia.
Qed.

(** What a well-formed [Timestamp] is made of. *)
Lemma well_formed_spec (t : Timestamp) :
  well_formed t = true <->
  valid_date (year t) (month t) (day t) = true
  /\ valid_time (hour t) (minute t) (second t) = true
  /\ min_seconds <= to_seconds t <= max_seconds.
Proof.
  unfold well_formed, in_bounds. rewrite !andb_true_iff, !Z.leb_le. tauto.
Qed.

Lemma well_formed_year (t : Timestamp) :
  well_formed t = true -> 1 <= year t <= 9999.
Proof.
  rewrite well_formed_spec, valid_date_spec. tauto.
Qed.

Lemma dayofyear_bounds (t : Timestamp) :
  well_formed t = true -> 1 <= dayofyear t <= days_in_year (year t).
Proof.
  rewrite well_formed_spec. intros (V & _). now apply day_of_year_bounds.
Qed.

(** The years of the clock, and the days of its first and last year. *)
Lemma well_formed_clock (t : Timestamp) :
  well_formed t = true ->
  1677 <= year t <= 2262
  /\ (year t = 1677 -> 264 <= dayofyear t)
  /\ (year t = 2262 -> dayofyear t <= 101).
Proof.
  rewrite well_formed_spec. intros (V & T & B).
  pose proof (toordinal_bounds _ _ _ V) as O.
  apply valid_time_spec in T.
  unfold min_seconds, max_seconds, to_seconds in B.
  assert (Y : 1677 <= year t <= 2262).
  { split.
    - destruct (Z.le_gt_cases 1677 (year t)) as [|L]; [assumption|].
      pose proof (days_before_year_mono (year t + 1) 1677 ltac:(lia)) as M.
      change (days_before_year 1677) with 612147 in M. lia.
    - destruct (Z.le_gt_cases (year t) 2262) as [|L]; [assumption|].
      pose proof (days_before_year_mono 2263 (year t) ltac:(lia)) as M.
      change (days_before_year 2263) with 826178 in M. lia. }
  split; [exact Y|]. unfold dayofyear, toordinal in *.
  split; intros E; rewrite E in *.
  - change (days_before_year 1677) with 612147 in *. lia.
  - change (days_before_year 2262) with 825813 in *. lia.
Qed.

Lemma well_formed_of_seconds (t : Timestamp) :
  well_formed t = true -> of_seconds (to_seconds t) = t.
Proof.
  rewrite well_formed_spec. intros (V & T & _).
  now apply of_seconds_to_seconds.
Qed.

Lemma to_seconds_nonneg (t : Timestamp) :
  well_formed t = true -> 0 <= to_seconds t.
Proof.
  rewrite well_formed_spec. unfold min_seconds. lia.
Qed.

(** The seconds of the clock are well-formed [Timestamp]s. *)
Lemma of_seconds_well_formed (x : Z) :
  min_seconds <= x <= max_seconds -> well_formed (of_seconds x) = true.
Proof.
  intros B. apply well_formed_spec.
  assert (P : 0 <= x) by (unfold min_seconds in B; lia).
  rewrite (to_seconds_of_seconds x P).
  split; [|split; [|exact B]].
  - unfold of_seconds.
    pose proof (toordinal_fromordinal (x / 86400 + 1)) as O.
    destruct (fromordinal (x / 86400 + 1)) as [[y m] d].
    destruct O as (O & Hy & Hm & Hd); [Z.div_mod_to_equations; lia|].
    cbn [year month day]. apply valid_date_spec.
    split; [|split; assumption]. split; [exact Hy|].
    destruct (Z.le_gt_cases y 9999) as [|L]; [assumption|].
    pose proof (days_before_year_mono 2263 y ltac:(lia)) as M.
    change (days_before_year 2263) with 826178 in M.
    unfold toordinal, day_of_year in O.
    assert (0 <= days_before_month (is_leap y) m)
      by (destruct (is_leap y);
          assert (M' : m = 1 \/ m = 2 \/ m = 3 \/ m = 4 \/ m = 5 \/ m = 6
                       \/ m = 7 \/ m = 8 \/ m = 9 \/ m = 10 \/ m = 11
                       \/ m = 12) by lia;
          repeat (destruct M' as [->|M']; [cbn; lia|]); subst m; cbn; lia).
    unfold max_seconds in B. Z.div_mod_to_equations. lia.
  - unfold of_seconds.
    destruct (fromordinal (x / 86400 + 1)) as [[y m] d].
    cbn [hour minute second]. apply valid_time_spec.
    Z.div_mod_to_equations. lia.
Qed.

End CalendarFacts.

Section ClockFacts.

(** The comparison of the fields with the two ends of the clock, spelt
    out. *)
Lemma check_dts_bounds_spec (y m d h mi s : Z) :
  check_dts_bounds (mkTimestamp y m d h mi s) = true <->
  (1677 < y \/ (1677 = y /\ (9 < m \/ (9 = m /\ (21 < d \/ (21 = d /\
     (0 < h \/ (0 = h /\ (12 < mi \/ (12 = mi /\ 43 < s))))))))))
  /\ ~ (2262 < y \/ (2262 = y /\ (4 < m \/ (4 = m /\ (11 < d \/ (11 = d /\
     (23 < h \/ (23 = h /\ (47 < mi \/ (47 = mi /\ 16 < s)))))))))).
Proof.
  unfold check_dts_bounds, fields. cbn [lex_lt year month day hour minute second].
  rewrite andb_true_iff, negb_true_iff, <- not_true_iff_false.
  rewrite !andb_false_r, !orb_false_r.
  repeat (rewrite orb_true_iff || rewrite andb_true_iff).
  rewrite !Z.ltb_lt, !Z.eqb_eq.
  reflexivity.
Qed.

(** In the first and in the last year of the clock, a date is told from
    its month and day. *)
Lemma toordinal_1677 (m d : Z) :
  valid_date 1677 m d = true ->
  (m < 9 -> toordinal 1677 m d <= 612147 + 243)
  /\ (m = 9 -> toordinal 1677 m d = 612147 + 243 + d)
  /\ (9 < m -> 612147 + 274 <= toordinal 1677 m d).
Proof.
  rewrite valid_date_spec. intros (_ & Hm & Hd).
  unfold toordinal, day_of_year, days_in_month in *.
  change (days_before_year 1677) with 612147.
  change (is_leap 1677) with false in *.
  assert (M : m = 1 \/ m = 2 \/ m = 3 \/ m = 4 \/ m = 5 \/ m = 6 \/ m = 7
              \/ m = 8 \/ m = 9 \/ m = 10 \/ m = 11 \/ m = 12) by lia.
  repeat (destruct M as [M|M]; [rewrite M in *; cbn in *; lia|]).
  rewrite M in *; cbn in *; lia.
Qed.

Lemma toordinal_2262 (m d : Z) :
  valid_date 2262 m d = true ->
  (m < 4 -> toordinal 2262 m d <= 825813 + 90)
  /\ (m = 4 -> toordinal 2262 m d = 825813 + 90 + d)
  /\ (4 < m -> 825813 + 121 <= toordinal 2262 m d).
Proof.
  rewrite valid_date_spec. intros (_ & Hm & Hd).
  unfold toordinal, day_of_year, days_in_month in *.
  change (days_before_year 2262) with 825813.
  change (is_leap 2262) with false in *.
  assert (M : m = 1 \/ m = 2 \/ m = 3 \/ m = 4 \/ m = 5 \/ m = 6 \/ m = 7
              \/ m = 8 \/ m = 9 \/ m = 10 \/ m = 11 \/ m = 12) by lia.
  repeat (destruct M as [M|M]; [rewrite M in *; cbn in *; lia|]).
  rewrite M in *; cbn in *; lia.
Qed.

(** Fields that pass the check add up to seconds of the clock. *)
Lemma check_dts_bounds_seconds (y m d h mi s : Z) :
  valid_date y m d = true ->
  read_time h mi s = true ->
  check_dts_bounds (mkTimestamp y m d h mi s) = true ->
  min_seconds <= to_seconds (mkTimestamp y m d h mi s) <= max_seconds.
Proof.
  intros V R C. apply check_dts_bounds_spec in C. destruct C as [Lo Up].
  apply read_time_spec in R.
  pose proof (toordinal_bounds y m d V) as O.
  unfold min_seconds, max_seconds, to_seconds.
  cbn [year month day hour minute second].
  destruct (Z.lt_trichotomy y 1677) as [Y|[Y|Y]]; [lia| |].
  - subst y. pose proof (toordinal_1677 m d V).
    change (days_before_year (1677 + 1)) with 612512 in O.
    change (days_before_year 1677) with 612147 in O. lia.
  - destruct (Z.lt_trichotomy y 2262) as [Y'|[Y'|Y']]; [| |lia].
    + pose proof (days_before_year_mono 1678 y ltac:(lia)) as M1.
      pose proof (days_before_year_mono (y + 1) 2262 ltac:(lia)) as M2.
      change (days_before_year 1678) with 612512 in M1.
      change (days_before_year 2262) with 825813 in M2. lia.
    + subst y. pose proof (toordinal_2262 m d V).
      change (days_before_year (2262 + 1)) with 826178 in O.
      change (days_before_year 2262) with 825813 in O. lia.
Qed.

(** A well-formed [Timestamp] passes the check. *)
Lemma well_formed_check_dts_bounds (t : Timestamp) :
  well_formed t = true -> check_dts_bounds t = true.
Proof.
  rewrite well_formed_spec. intros (V & T & B).
  destruct t as [y m d h mi s]. cbn [year month day hour minute second] in *.
  apply check_dts_bounds_spec. apply valid_time_spec in T.
  pose proof (toordinal_bounds y m d V) as O.
  unfold min_seconds, max_seconds, to_seconds in B.
  cbn [year month day hour minute second] in B.
  destruct (Z.lt_trichotomy y 1677) as [Y|[Y|Y]].
  - pose proof (days_before_year_mono (y + 1) 1677 ltac:(lia)) as M1.
    change (days_before_year 1677) with 612147 in M1. lia.
  - subst y. pose proof (toordinal_1677 m d V).
    change (days_before_year (1677 + 1)) with 612512 in O.
    change (days_before_year 1677) with 612147 in O. lia.
  - destruct (Z.lt_trichotomy y 2262) as [Y'|[Y'|Y']].
    + lia.
    + subst y. pose proof (toordinal_2262 m d V).
      change (days_before_year (2262 + 1)) with 826178 in O.
      change (days_before_year 2262) with 825813 in O. lia.
    + pose proof (days_before_year_mono 2263 y ltac:(lia)) as M2.
      change (days_before_year 2263) with 826178 in M2. lia.
Qed.

End ClockFacts.

(** ** Facts about parsing and formatting *)

Section PandasFacts.

Lemma strftime_Y (t : Timestamp) :
  strftime (TS t) (PStr "%Y") = Val (zero_pad 4 (year t)).
Proof.
  change (strftime (TS t) (PStr "%Y")) with (Val (zero_pad 4 (year t) +:+ "")).
  now rewrite append_empty.
Qed.

Lemma strftime_j (t : Timestamp) :
  strftime (TS t) (PStr "%j") = Val (zero_pad 3 (dayofyear t)).
Proof.
  change (strftime (TS t) (PStr "%j"))
    with (Val (zero_pad 3 (dayofyear t) +:+ "")).
  now rewrite append_empty.
Qed.

(** [%j] reads a day of the year written without padding, whatever
    follows the [/]. *)
Lemma try_alts_julian (X : Z) :
  1 <= X <= 366 ->
  forall R (k : string -> string -> option R) r res,
    k (format_d X) (String "/" r) = Some res ->
    try_alts (alternatives "j") k (format_d X +:+ String "/" r) = Some res.
Proof.
  intros HX R k r res.
  assert (H : In X (seqZ 1 366)) by (apply list_elem_of_In, elem_of_seqZ; lia).
  vm_compute in H.
  repeat (destruct H as [<-|H];
          [vm_compute; intros Hk; rewrite Hk; reflexivity|]).
  destruct H.
Qed.

Lemma match_year (y : Z) :
  1 <= y <= 9999 ->
  match_classes [is_digit; is_digit; is_digit; is_digit] (zero_pad 4 y)
  = Some (zero_pad 4 y, "").
Proof.
  intros Hy. rewrite zero_pad_4 by lia. cbn [match_classes].
  rewrite !is_digit_digit_char by apply mod_10_digit.
  reflexivity.
Qed.

Lemma not_nat_string_julian (X : Z) (r : string) :
  1 <= X <= 366 -> is_nat_string (format_d X +:+ String "/" r) = false.
Proof.
  intros HX.
  assert (H : In X (seqZ 1 366)) by (apply list_elem_of_In, elem_of_seqZ; lia).
  vm_compute in H.
  repeat (destruct H as [<-|H]; [vm_compute; reflexivity|]).
  destruct H.
Qed.

(** ['%d/%s' % (X, year)] read back under ['%j/%Y']. *)
Lemma strptime_julian (X y : Z) :
  1 <= X <= 366 -> 1 <= y <= 9999 ->
  strptime (format_d X +:+ "/" +:+ zero_pad 4 y) "%j/%Y"
  = build (mkFound y 1 1 0 0 0 (Some X)).
Proof.
  intros HX Hy. unfold strptime.
  change (compile "%j/%Y") with [Dir "j"; Lit "/"; Dir "Y"].
  change ("/" +:+ zero_pad 4 y) with (String "/" (zero_pad 4 y)).
  cbn [re_match].
  match goal with
  | |- context [try_alts _ ?k0 _] => set (k := k0)
  end.
  assert (Hk : k (format_d X) (String "/" (zero_pad 4 y))
               = Some (mkFound y 1 1 0 0 0 (Some X), "")).
  { unfold k. rewrite (int_format_d_366 X HX).
    change (alternatives "Y") with [[is_digit; is_digit; is_digit; is_digit]].
    cbn [try_alts Ascii.eqb Bool.eqb].
    rewrite (match_year y Hy), (int_zero_pad_4 y Hy). reflexivity. }
  rewrite (try_alts_julian X HX _ k _ _ Hk). reflexivity.
Qed.

(** Fields that make a well-formed [Timestamp] are that [Timestamp]. *)
Lemma build_well_formed (y m d h mi s : Z) :
  well_formed (mkTimestamp y m d h mi s) = true ->
  build (mkFound y m d h mi s None) = Val (mkTimestamp y m d h mi s).
Proof.
  intros W. pose proof (well_formed_check_dts_bounds _ W) as C.
  apply well_formed_spec in W. destruct W as (V & T & _).
  cbn [year month day hour minute second] in V, T.
  unfold build. cbn [f_julian f_year f_month f_day f_hour f_minute f_second].
  rewrite V, C.
  assert (R : read_time h mi s = true)
    by (apply read_time_spec; apply valid_time_spec in T; lia).
  rewrite R. cbn [andb].
  now rewrite of_seconds_to_seconds.
Qed.

(** The midnights of the days from [first_day] to [last_day] are within
    the clock. *)
Lemma midnight_well_formed (y m d : Z) :
  valid_date y m d = true ->
  1677 <= y <= 2262 ->
  first_day y <= day_of_year y m d <= last_day y ->
  well_formed (mkTimestamp y m d 0 0 0) = true.
Proof.
  intros V Hy HX. apply well_formed_spec.
  cbn [year month day hour minute second].
  split; [exact V|]. split; [reflexivity|].
  pose proof (day_of_year_bounds y m d V) as B.
  unfold min_seconds, max_seconds, to_seconds, toordinal.
  cbn [year month day hour minute second].
  pose proof (days_in_year_le y) as Y.
  destruct (Z.eq_dec y 1677) as [->|N1].
  - change (first_day 1677) with 265 in HX.
    change (days_before_year 1677) with 612147. lia.
  - destruct (Z.eq_dec y 2262) as [->|N2].
    + change (last_day 2262) with 101 in HX.
      change (days_before_year 2262) with 825813. lia.
    + pose proof (days_before_year_mono 1678 y ltac:(lia)) as M1.
      pose proof (days_before_year_mono (y + 1) 2262 ltac:(lia)) as M2.
      rewrite days_before_year_succ in M2.
      change (days_before_year 1678) with 612512 in M1.
      change (days_before_year 2262) with 825813 in M2. lia.
Qed.

Lemma build_year_day (X y : Z) :
  1677 <= y <= 2262 -> first_day y <= X <= last_day y ->
  1 <= X <= days_in_year y ->
  build (mkFound y 1 1 0 0 0 (Some X))
  = Val (mkTimestamp y (fst (month_day_of (is_leap y) X))
           (snd (month_day_of (is_leap y) X)) 0 0 0).
Proof.
  intros Hy HX HX'. unfold build, date_of_year_day.
  cbn [f_julian f_year f_hour f_minute f_second].
  destruct (Z.leb_spec X (days_in_year y)) as [_|]; [|lia].
  pose proof (month_day_of_spec (is_leap y) X) as S.
  destruct (month_day_of (is_leap y) X) as [m d]. cbn [fst snd] in *.
  unfold days_in_year in HX'.
  assert (S' : 1 <= m <= 12 /\ 1 <= d <= month_length (is_leap y) m
               /\ days_before_month (is_leap y) m + d = X)
    by (apply S; destruct (is_leap y); lia).
  assert (V : valid_date y m d = true)
    by (apply valid_date_spec; unfold days_in_month; lia).
  assert (W : well_formed (mkTimestamp y m d 0 0 0) = true).
  { apply midnight_well_formed; [exact V | exact Hy|].
    unfold day_of_year. lia. }
  rewrite V, (well_formed_check_dts_bounds _ W).
  change (read_time 0 0 0) with true. cbn [andb].
  rewrite of_seconds_to_seconds; [reflexivity | exact V | reflexivity].
Qed.

(** The day [X] of year [y], when the clock holds its midnight. *)
Lemma to_datetime_year_day (X y : Z) :
  1677 <= y <= 2262 -> first_day y <= X <= last_day y ->
  1 <= X <= days_in_year y ->
  to_datetime (PStr (format_d X +:+ "/" +:+ zero_pad 4 y)) "%j/%Y"
  = Val (TS (mkTimestamp y (fst (month_day_of (is_leap y) X))
               (snd (month_day_of (is_leap y) X)) 0 0 0)).
Proof.
  intros Hy HX HX'. pose proof (days_in_year_le y) as Y.
  unfold to_datetime.
  change ("/" +:+ zero_pad 4 y) with (String "/" (zero_pad 4 y)).
  rewrite not_nat_string_julian by lia.
  change (String "/" (zero_pad 4 y)) with ("/" +:+ zero_pad 4 y).
  rewrite strptime_julian by lia.
  now rewrite build_year_day.
Qed.

(** A string is refused with [ValueError] only. *)
Lemma to_datetime_raises (s format : string) (e : exn) :
  to_datetime (PStr s) format = Raise e -> e = ValueError.
Proof.
  unfold to_datetime, strptime, build, map_res.
  destruct (is_nat_string s); [discriminate|].
  destruct (re_match _ _ _) as [[f [|c r]]|]; cbn [bind];
    try (intros H; injection H as <-; reflexivity).
  destruct (match f_julian f with Some j => _ | None => _ end) as [[y m] d].
  destruct (_ && _); cbn [bind]; [discriminate|].
  intros H; injection H as <-; reflexivity.
Qed.

(** What [build] returns is a well-formed [Timestamp]. *)
Lemma build_is_well_formed (f : found) (t : Timestamp) :
  build f = Val t -> well_formed t = true.
Proof.
  unfold build.
  destruct (match f_julian f with Some j => _ | None => _ end) as [[y m] d].
  destruct (valid_date y m d) eqn:V; [|discriminate].
  destruct (read_time _ _ _) eqn:R; [|discriminate].
  destruct (check_dts_bounds _) eqn:C; [|discriminate].
  cbn [andb]. intros H; injection H as <-.
  apply of_seconds_well_formed.
  now apply check_dts_bounds_seconds.
Qed.

(** What is parsed is a well-formed [Timestamp]. *)
Lemma to_datetime_well_formed (v : pyval) (format : string) (t : Timestamp) :
  to_datetime v format = Val (TS t) -> well_formed t = true.
Proof.
  unfold to_datetime, strptime, map_res.
  destruct v as [|b|s]; try discriminate.
  destruct (is_nat_string s); [discriminate|].
  destruct (re_match _ _ _) as [[f [|c r]]|]; cbn [bind]; try discriminate.
  destruct (build f) as [t'|] eqn:B; cbn [bind]; [|discriminate].
  intros H; injection H as <-. exact (build_is_well_formed f t' B).
Qed.

End PandasFacts.

(** ** Facts about [filter] *)

Section FilterFacts.

Lemma parse_dates_well_formed (self : DateTimeFilter) (t : Timestamp)
    (end_date : option date_value) :
  parse_dates self = Val (TS t, end_date) -> well_formed t = true.
Proof.
  unfold parse_dates. intros H.
  destruct (truthy (has_time self));
    (destruct (to_datetime (start self) _) as [sd|] eqn:E; cbn [bind] in H;
     [|discriminate];
     assert (sd = TS t) as ->
       by (destruct (is_not_None (end_ self));
           [destruct (to_datetime (end_ self) _); cbn [bind] in H;
            [injection H as -> _; reflexivity | discriminate]
           |injection H as -> _; reflexivity]);
     exact (to_datetime_well_formed _ _ _ E)).
Qed.

(** *** Alignment on a period of days

    The instance has [exact_dates] false and a period that ends in [D];
    [t] is a start date as parsed. *)

Section DayPeriod.

Variables (self : DateTimeFilter) (t : Timestamp) (p : string).
Hypothesis not_exact : truthy (exact_dates self) = false.
Hypothesis day_unit : period self = PStr (p +:+ "D").
Hypothesis parsed : well_formed t = true.

Lemma aligns_day : aligns self = Val true.
Proof.
  unfold aligns. rewrite not_exact, day_unit. cbn [negb subscript bind].
  now rewrite slice_last_app.
Qed.

(** Lines 98 to 104: what is left to run once year and day of the year of
    the start date are known. *)
Lemma align_start_day_period_int :
  align_start self (TS t) =
    (period_num <~ int p;;
     remainder <~ mod_ (dayofyear t - 1) period_num;;
     if 0 <? remainder then
       to_datetime
         (PStr (format_d
                  (ceil_truediv (dayofyear t - 1) period_num * period_num + 1)
                +:+ "/" +:+ zero_pad 4 (year t)))
         "%j/%Y"
     else Val (TS t)).
Proof.
  unfold align_start. rewrite aligns_day. cbn [bind].
  rewrite strftime_Y, strftime_j. cbn [bind].
  pose proof (dayofyear_bounds t parsed) as B.
  pose proof (days_in_year_le (year t)) as Y.
  unfold int at 1. rewrite (int_zero_pad_3 (dayofyear t)) by lia.
  rewrite day_unit. cbn [subscript bind or_raise].
  rewrite slice_init_app. reflexivity.
Qed.

Variable n : Z.
Hypothesis magnitude : int_opt p = Some n.

Lemma align_start_day_period :
  align_start self (TS t) =
    if n =? 0 then Raise ZeroDivisionError
    else if 0 <? (dayofyear t - 1) mod n then
      to_datetime
        (PStr (format_d (ceil_truediv (dayofyear t - 1) n * n + 1)
               +:+ "/" +:+ zero_pad 4 (year t)))
        "%j/%Y"
    else Val (TS t).
Proof.
  rewrite align_start_day_period_int.
  unfold int. rewrite magnitude. cbn [or_raise bind].
  unfold mod_. destruct (n =? 0); reflexivity.
Qed.

Hypothesis nonzero : n <> 0.

(** A start date on a period boundary stays. *)
Lemma unaligned_date :
  (dayofyear t - 1) mod n = 0 -> align_start self (TS t) = Val (TS t).
Proof.
  intros Hr. rewrite align_start_day_period, Hr.
  replace (n =? 0) with false by (symmetry; apply Z.eqb_neq; lia).
  reflexivity.
Qed.

(** A start date off the boundary moves to the next one, when the year of
    the start date still has that day within the clock. *)
Lemma realigned_date :
  0 < (dayofyear t - 1) mod n ->
  ceiling (dayofyear t - 1) n * n + 1 <= last_day (year t) ->
  exists m d,
    align_start self (TS t) = Val (TS (mkTimestamp (year t) m d 0 0 0))
    /\ valid_date (year t) m d = true
    /\ day_of_year (year t) m d = ceiling (dayofyear t - 1) n * n + 1.
Proof.
  intros Hr Hx.
  pose proof (dayofyear_bounds t parsed) as B.
  pose proof (days_in_year_le (year t)) as Y.
  destruct (well_formed_clock t parsed) as (Hy & Hfirst & _).
  assert (Hl : last_day (year t) <= days_in_year (year t)).
  { unfold last_day. destruct (year t =? 2262); lia. }
  rewrite align_start_day_period.
  set (a := dayofyear t - 1) in *.
  assert (Hpos : 0 < n).
  { destruct (Z.lt_trichotomy n 0) as [N|[N|N]]; [|lia|exact N].
    pose proof (Z.mod_neg_bound a n N). lia. }
  assert (Ha : 1 <= a).
  { destruct (Z.eq_dec a 0) as [E|E]; [rewrite E, Z.mod_0_l in Hr; lia|lia]. }
  pose proof (ceiling_spec a n Hpos) as C.
  assert (Hq : 1 <= ceiling a n) by nia.
  assert (Hn366 : n <= 366) by nia.
  replace (n =? 0) with false by (symmetry; apply Z.eqb_neq; lia).
  replace (0 <? a mod n) with true by (symmetry; apply Z.ltb_lt; lia).
  rewrite (ceil_truediv_exact a n Ha ltac:(lia)).
  set (X := ceiling a n * n + 1) in *.
  assert (HX : 1 <= X <= days_in_year (year t)) by (unfold X; nia).
  assert (HX' : first_day (year t) <= X <= last_day (year t)).
  { split; [|exact Hx]. unfold first_day.
    destruct (Z.eqb_spec (year t) 1677) as [E|_]; [|lia].
    specialize (Hfirst E).
    assert (Hs : a <> ceiling a n * n).
    { intros E'. rewrite E', Z.mod_mul in Hr by lia. lia. }
    unfold X, a in *. lia. }
  rewrite (to_datetime_year_day X (year t) Hy HX' HX).
  exists (fst (month_day_of (is_leap (year t)) X)),
         (snd (month_day_of (is_leap (year t)) X)).
  split; [reflexivity|].
  pose proof (month_day_of_spec (is_leap (year t)) X) as S.
  destruct (month_day_of (is_leap (year t)) X) as [m d]. cbn [fst snd] in *.
  assert (S' : 1 <= m <= 12 /\ 1 <= d <= month_length (is_leap (year t)) m
               /\ days_before_month (is_leap (year t)) m + d = X).
  { apply S. unfold days_in_year in HX. destruct (is_leap (year t)); lia. }
  split; [|unfold day_of_year; lia].
  unfold valid_date, days_in_month.
  repeat (apply andb_true_intro; split); apply Z.leb_le; lia.
Qed.

End DayPeriod.

(** No alignment: exact dates, or a period that does not end in [D]. *)
Lemma align_start_skipped (self : DateTimeFilter) (start_date : date_value) :
  truthy (exact_dates self) = true
  \/ (exists p, period self = PStr p /\ slice_last p <> "D") ->
  align_start self start_date = Val start_date.
Proof.
  intros [He|(p & Hp & Hu)]; unfold align_start, aligns.
  - now rewrite He.
  - destruct (truthy (exact_dates self)); [reflexivity|].
    rewrite Hp. cbn [negb subscript bind].
    destruct (String.eqb_spec (slice_last p) "D") as [E|_]; [contradiction|].
    reflexivity.
Qed.

(** What [append_formatted] adds does not depend on what is there. *)
Lemma append_formatted_acc (pattern : pyval) (dates : list date_value) :
  forall vs r,
    append_formatted pattern dates vs = Val r ->
    exists out, r = (vs ++ out)%list
      /\ forall vs', append_formatted pattern dates vs' = Val (vs' ++ out)%list.
Proof.
  induction dates as [|dt dates IH]; intros vs r H; cbn [append_formatted] in *.
  - exists []. split; [injection H as <-; now rewrite app_nil_r|].
    intros vs'. now rewrite app_nil_r.
  - destruct (strftime dt pattern) as [s|e]; cbn [bind] in *; [|discriminate].
    destruct (IH _ _ H) as (out & -> & Hout).
    exists (s :: out). split; [now rewrite <- app_assoc|].
    intros vs'. rewrite Hout. now rewrite <- app_assoc.
Qed.

Lemma filter_generate_raises (self : DateTimeFilter)
    (start_date : date_value) (end_date : option date_value) (x : exn) :
  parse_dates self = Val (start_date, end_date) ->
  generate self start_date end_date = Raise x ->
  filter self = inl (raised x).
Proof.
  intros Hd Hg. unfold filter. rewrite Hd, Hg. destruct x; reflexivity.
Qed.

(** Without an end date, a start date that parses and aligns is the one
    date formatted. *)
Lemma single_date_without_end
    (self : DateTimeFilter) (t t' : Timestamp) (p : string) :
  end_ self = PNone ->
  to_datetime (start self) (date_format self) = Val (TS t) ->
  align_start self (TS t) = Val (TS t') ->
  pattern self = PStr p ->
  filter self = inr (set_values self (values self ++ [format_with t' p])).
Proof.
  intros He Hs Ha Hp. unfold filter, parse_dates, date_format in *.
  rewrite He. cbn [is_not_None].
  destruct (truthy (has_time self)); rewrite Hs; cbn [bind];
    unfold generate; rewrite Ha; cbn [bind all_dates append_formatted];
    rewrite Hp; reflexivity.
Qed.

(** With the lowercase unit and an end date, the days are enumerated from
    the start date as it is written. *)
Example lowercase_fifth_day_values :
  filter lowercase_fifth_day
  = inr (set_values lowercase_fifth_day
           ["2020-01-07"; "2020-01-12"; "2020-01-17"]).
Proof. vm_compute. reflexivity. Qed.

(** A second of 60 is read and carried into the next minute. *)
Example second_60_is_carried :
  to_datetime (PStr "01/05/2020 23:59:60") "%m/%d/%Y %H:%M:%S"
  = Val (TS (date 2020 1 6))
  /\ run (kw [("pattern", PStr "%Y-%m-%d %H:%M:%S");
              ("start", PStr "01/05/2020 23:59:60");
              ("has_time", PBool true); ("exact_dates", PBool true)])
     = inr ["2020-01-06 00:00:00"].
Proof. split; vm_compute; reflexivity. Qed.

(** The two ends of the clock. *)
Example ends_of_the_clock :
  to_datetime (PStr "09/21/1677 00:12:43") "%m/%d/%Y %H:%M:%S"
  = Raise ValueError
  /\ to_datetime (PStr "09/21/1677 00:12:44") "%m/%d/%Y %H:%M:%S"
     = Val (TS (mkTimestamp 1677 9 21 0 12 44))
  /\ to_datetime (PStr "04/11/2262 23:47:16") "%m/%d/%Y %H:%M:%S"
     = Val (TS (mkTimestamp 2262 4 11 23 47 16))
  /\ to_datetime (PStr "04/11/2262 23:47:17") "%m/%d/%Y %H:%M:%S"
     = Raise ValueError
  /\ to_datetime (PStr "01/01/3000") "%m/%d/%Y" = Raise ValueError.
Proof. repeat split; vm_compute; reflexivity. Qed.

(** In 2262 the clock ends before the year does.  From 10 April, day 100,
    a period of [7D] leads to day 106, and from 2 January a period of
    [365D] leads to day 366, which is 1 January 2263: neither is a date
    pandas holds, and [filter] raises. *)
Example realign_beyond_the_clock_raises :
  (parse_dates end_of_the_clock = Val (TS (date 2262 4 10), None)
   /\ dayofyear (date 2262 4 10) = 100
   /\ 0 < (100 - 1) mod 7
   /\ ceiling (100 - 1) 7 * 7 + 1 = 106
   /\ 106 <= days_in_year 2262
   /\ last_day 2262 = 101
   /\ align_start end_of_the_clock (TS (date 2262 4 10)) = Raise ValueError
   /\ filter end_of_the_clock = inl ErrorApplying)
  /\ (parse_dates last_year_of_the_clock = Val (TS (date 2262 1 2), None)
      /\ 0 < (dayofyear (date 2262 1 2) - 1) mod 365
      /\ ceiling (dayofyear (date 2262 1 2) - 1) 365 * 365 + 1 = 366
      /\ is_leap 2262 = false
      /\ align_start last_year_of_the_clock (TS (date 2262 1 2))
         = Raise ValueError
      /\ filter last_year_of_the_clock = inl ErrorApplying).
Proof.
  split.
  - repeat (split; [vm_compute; first [reflexivity | discriminate]|]).
    vm_compute; reflexivity.
  - repeat (split; [vm_compute; first [reflexivity | discriminate]|]).
    vm_compute; reflexivity.
Qed.

End FilterFacts.

(** ** Facts about frequencies and ranges *)

Section RangeFacts.

Lemma digit_is_no_space (c : ascii) : is_digit c = true -> re_space c = false.
Proof.
  destruct c as [[] [] [] [] [] [] [] []]; vm_compute; congruence.
Qed.

Lemma digit_is_no_sign (c : ascii) :
  is_digit c = true -> Ascii.eqb c "-" = false /\ Ascii.eqb c "+" = false.
Proof.
  destruct c as [[] [] [] [] [] [] [] []]; vm_compute; split; congruence.
Qed.

Lemma digit_is_no_letter (c : ascii) : is_digit c = true -> is_letter c = false.
Proof.
  destruct c as [[] [] [] [] [] [] [] []]; vm_compute; congruence.
Qed.

Lemma span_digits_app (ds r : string) :
  all_digits ds = true ->
  (forall c r', r = String c r' -> is_digit c = false) ->
  span_digits (ds +:+ r) = (ds, r).
Proof.
  intros D R. induction ds as [|a ds IH].
  - change ("" +:+ r) with r. destruct r as [|c r']; [reflexivity|].
    cbn [span_digits]. now rewrite (R c r' eq_refl).
  - cbn [all_digits] in D. apply andb_prop in D. destruct D as [Da D].
    rewrite append_cons. cbn [span_digits]. now rewrite Da, (IH D).
Qed.

(** A whole number of days, written with the lowercase unit. *)
Lemma to_offset_lowercase_days (ds : string) (n : Z) :
  all_digits ds = true -> int_opt ds = Some n -> 0 < n < 2 ^ 63 ->
  to_offset (ds +:+ "d") = Val (Tick n 86400).
Proof.
  intros D I N. unfold to_offset.
  destruct ds as [|a ds']; [discriminate I|].
  pose proof D as D0. cbn [all_digits] in D0. apply andb_prop in D0.
  destruct D0 as [Da _].
  rewrite append_cons. cbn [skip_spaces]. rewrite (digit_is_no_space a Da).
  destruct (digit_is_no_sign a Da) as [-> ->].
  rewrite <- append_cons.
  rewrite (span_digits_app (String a ds') "d" D)
    by (intros c r' E; injection E as <- _; reflexivity).
  rewrite I. change (alias (skip_spaces "d")) with (Some (fun n => Tick n 86400)).
  replace (fits_int64 (1 * n)) with true; [now rewrite Z.mul_1_l|].
  symmetry. unfold fits_int64. apply andb_true_intro.
  split; [apply Z.leb_le | apply Z.ltb_lt]; lia.
Qed.

Lemma has_letter_skip_spaces (s : string) :
  has_letter s = false -> has_letter (skip_spaces s) = false.
Proof.
  induction s as [|c s IH]; [reflexivity|]. cbn [skip_spaces has_letter].
  intros H. apply orb_false_iff in H. destruct H as [Hc Hs].
  destruct (re_space c); [now apply IH|].
  cbn [has_letter]. now rewrite Hc, Hs.
Qed.

Lemma has_letter_span_digits (s : string) :
  has_letter s = false -> has_letter (snd (span_digits s)) = false.
Proof.
  induction s as [|c s IH]; [reflexivity|]. cbn [span_digits has_letter].
  intros H. pose proof H as H0. apply orb_false_iff in H. destruct H as [Hc Hs].
  destruct (is_digit c).
  - specialize (IH Hs). destruct (span_digits s) as [ds r]. exact IH.
  - exact H0.
Qed.

Lemma reads_has_letter (a : ascii) (name s : string) :
  is_letter a = true -> has_letter s = false ->
  reads (String a name) s = false.
Proof.
  intros La H. destruct s as [|c s]; [reflexivity|]. cbn [reads].
  cbn [has_letter] in H. apply orb_false_iff in H. destruct H as [Hc _].
  destruct (Ascii.eqb_spec a c) as [->|_]; [congruence | reflexivity].
Qed.

Lemma alias_has_letter (s : string) : has_letter s = false -> alias s = None.
Proof.
  intros H. unfold alias. cbn [existsb].
  rewrite !(reads_has_letter _ _ s) by (exact H || reflexivity).
  reflexivity.
Qed.

(** A period without a letter names no frequency. *)
Lemma to_offset_no_letter (p : string) :
  has_letter p = false -> to_offset p = Raise ValueError.
Proof.
  intros H. unfold to_offset.
  pose proof (has_letter_skip_spaces p H) as Hs.
  set (s := skip_spaces p) in *.
  assert (B : forall sign signed body,
             has_letter body = false ->
             (let '(ds, r) := span_digits body in
              match
                match ds with
                | "" => if signed : bool then None else Some 1
                | String _ _ => int_opt ds
                end, alias (skip_spaces r)
              with
              | Some n, Some mk =>
                  if fits_int64 (sign * n) then Val (mk (sign * n))
                  else Raise OverflowError
              | _, _ => Raise ValueError
              end) = Raise ValueError).
  { intros sign signed body Hb.
    pose proof (has_letter_span_digits body Hb) as Hr.
    destruct (span_digits body) as [ds r]. cbn [snd] in Hr.
    rewrite (alias_has_letter _ (has_letter_skip_spaces r Hr)).
    now destruct (match ds with "" => _ | String _ _ => _ end). }
  destruct s as [|c r]; [exact (B 1 false "" eq_refl)|].
  pose proof Hs as Hs0.
  cbn [has_letter] in Hs. apply orb_false_iff in Hs. destruct Hs as [Hc Hr].
  destruct (Ascii.eqb c "-"); [exact (B (-1) true r Hr)|].
  destruct (Ascii.eqb c "+"); [exact (B 1 true r Hr)|].
  exact (B 1 false (String c r) Hs0).
Qed.

(** The unit [X] names no frequency, whatever the stride. *)
Lemma to_offset_unit_X (ds : string) :
  all_digits ds = true -> to_offset (ds +:+ "X") = Raise ValueError.
Proof.
  intros D. unfold to_offset.
  destruct ds as [|a ds']; [reflexivity|].
  pose proof D as D0. cbn [all_digits] in D0. apply andb_prop in D0.
  destruct D0 as [Da _].
  rewrite append_cons. cbn [skip_spaces]. rewrite (digit_is_no_space a Da).
  destruct (digit_is_no_sign a Da) as [-> ->].
  rewrite <- append_cons.
  rewrite (span_digits_app (String a ds') "X" D)
    by (intros c r' E; injection E as <- _; reflexivity).
  change (alias (skip_spaces "X")) with (@None (Z -> offset)).
  now destruct (int_opt (String a ds')).
Qed.

Lemma slice_last_no_letter (p : string) :
  has_letter p = false -> slice_last p <> "D".
Proof.
  induction p as [|c p IH]; [discriminate|].
  cbn [has_letter]. intros H. apply orb_false_iff in H. destruct H as [Hc Hp].
  destruct p as [|c' p'].
  - cbn [slice_last]. intros E. injection E as ->. discriminate Hc.
  - change (slice_last (String c (String c' p')))
      with (slice_last (String c' p')). now apply IH.
Qed.

Lemma append_formatted_dates (pat : string) (l : list Timestamp) :
  forall vs,
    append_formatted (PStr pat) (TS <$> l) vs
    = Val (vs ++ ((fun t => format_with t pat) <$> l))%list.
Proof.
  induction l as [|t l IH]; intros vs; cbn.
  - now rewrite app_nil_r.
  - rewrite IH. now rewrite <- app_assoc.
Qed.

Lemma align_start_well_formed (self : DateTimeFilter) (t t' : Timestamp) :
  well_formed t = true ->
  align_start self (TS t) = Val (TS t') ->
  well_formed t' = true.
Proof.
  intros W. unfold align_start.
  destruct (aligns self) as [[|]|]; cbn [bind]; try discriminate.
  - destruct (strftime (TS t) (PStr "%Y")) as [sy|]; cbn [bind]; [|discriminate].
    destruct (strftime (TS t) (PStr "%j")) as [sj|]; cbn [bind]; [|discriminate].
    destruct (int sj) as [j|]; cbn [bind]; [|discriminate].
    destruct (subscript slice_init (period self)) as [sp|]; cbn [bind];
      [|discriminate].
    destruct (int sp) as [pn|]; cbn [bind]; [|discriminate].
    destruct (mod_ (j - 1) pn) as [r|]; cbn [bind]; [|discriminate].
    destruct (0 <? r).
    + apply to_datetime_well_formed.
    + intros H; injection H as <-; exact W.
  - intros H; injection H as <-; exact W.
Qed.

Lemma parse_dates_end_well_formed (self : DateTimeFilter)
    (start_date : date_value) (e : Timestamp) :
  parse_dates self = Val (start_date, Some (TS e)) -> well_formed e = true.
Proof.
  unfold parse_dates. intros H.
  destruct (truthy (has_time self));
    (destruct (to_datetime (start self) _) as [sd|]; cbn [bind] in H;
     [|discriminate];
     destruct (is_not_None (end_ self)); [|discriminate];
     destruct (to_datetime (end_ self) _) as [ed|] eqn:E; cbn [bind] in H;
     [|discriminate];
     injection H as _ ->; exact (to_datetime_well_formed _ _ _ E)).
Qed.

(** With an end date and a frequency of a fixed length, the values added
    are the dates [t' + k * (n * u)] seconds, [k] from 0 to the quotient of
    the distance to the end date by the step. *)
Lemma filter_with_end
    (self : DateTimeFilter) (t t' e : Timestamp) (p pat : string) (n u : Z) :
  parse_dates self = Val (TS t, Some (TS e)) ->
  align_start self (TS t) = Val (TS t') ->
  period self = PStr p ->
  to_offset p = Val (Tick n u) ->
  n * u <> 0 ->
  pattern self = PStr pat ->
  filter self =
    inr (set_values self
           (values self
            ++ ((fun k => format_with (of_seconds (to_seconds t' + k * (n * u))) pat)
                <$> seqZ 0 ((to_seconds e - to_seconds t') / (n * u) + 1)))).
Proof.
  intros parsed aligned frequency ticks forward pattern_string.
  unfold filter. rewrite parsed. unfold generate. rewrite aligned.
  cbn [bind all_dates]. unfold date_range. rewrite frequency, ticks.
  cbn [bind range_of].
  replace (n * u =? 0) with false by (symmetry; apply Z.eqb_neq; lia).
  cbn [bind]. rewrite pattern_string, append_formatted_dates.
  now rewrite <- list_fmap_compose.
Qed.

Lemma stride_fits_spec (x : Z) (e : Timestamp) :
  stride_fits x e = true <->
  0 < x <= 9223372036 /\ to_seconds e + x <= max_seconds.
Proof.
  unfold stride_fits. change (2 ^ 63 / 10 ^ 9) with 9223372036.
  rewrite !andb_true_iff, Z.ltb_lt, !Z.leb_le. tauto.
Qed.

End RangeFacts.

(** ** The claims *)

(** C1, amended.  With [exact_dates] false and a period [nD] of nonzero
    integer magnitude [n], let [j] be the day of the year of the parsed
    start date.  If [(j - 1) mod n = 0] the start date is unchanged.  If
    [(j - 1) mod n > 0] and day [ceil((j - 1) / n) * n + 1] exists in the
    year of the start date, and is no later than the last day pandas'
    clock holds (11 April in 2262), the start date is replaced by that day
    of the same year, at midnight.  The magnitude is one [int] reads: it
    has at most 4300 digits. *)
Theorem realign_start_on_day_period
    (self : DateTimeFilter) (t : Timestamp) (p : string) (n : Z) :
  truthy (exact_dates self) = false ->
  period self = PStr (p +:+ "D") ->
  int_opt p = Some n ->
  n <> 0 ->
  well_formed t = true ->
  ((dayofyear t - 1) mod n = 0 -> align_start self (TS t) = Val (TS t))
  /\ (0 < (dayofyear t - 1) mod n ->
      ceiling (dayofyear t - 1) n * n + 1 <= last_day (year t) ->
      exists m d,
        align_start self (TS t) = Val (TS (mkTimestamp (year t) m d 0 0 0))
        /\ valid_date (year t) m d = true
        /\ day_of_year (year t) m d = ceiling (dayofyear t - 1) n * n + 1).
Proof.
  intros He Hp Hn Hn0 Hw. split.
  - apply (unaligned_date self t p He Hp Hw n Hn Hn0).
  - apply (realigned_date self t p He Hp Hw n Hn Hn0).
Qed.

(** 8 January 2020 with period [3D]: day 8 moves to day 10. *)
Lemma realign_start_on_day_period_witness :
  (truthy (exact_dates every_third_day) = false
   /\ period every_third_day = PStr ("3" +:+ "D")
   /\ int_opt "3" = Some 3
   /\ 3 <> 0
   /\ well_formed (date 2020 1 8) = true)
  /\ (((dayofyear (date 2020 1 8) - 1) mod 3 = 0 ->
       align_start every_third_day (TS (date 2020 1 8))
       = Val (TS (date 2020 1 8)))
      /\ (0 < (dayofyear (date 2020 1 8) - 1) mod 3 ->
          ceiling (dayofyear (date 2020 1 8) - 1) 3 * 3 + 1
          <= last_day 2020 ->
          exists m d,
            align_start every_third_day (TS (date 2020 1 8))
            = Val (TS (mkTimestamp 2020 m d 0 0 0))
            /\ valid_date 2020 m d = true
            /\ day_of_year 2020 m d
               = ceiling (dayofyear (date 2020 1 8) - 1) 3 * 3 + 1)).
Proof.
  split.
  - split; [reflexivity|]. split; [reflexivity|]. split; [reflexivity|].
    split; [lia | reflexivity].
  - apply (realign_start_on_day_period every_third_day (date 2020 1 8) "3" 3);
      [reflexivity | reflexivity | reflexivity | lia | reflexivity].
Defined.

(** C1 as stated fails.  On 30 December 2020, day 365, with period [100D]
    the remainder is 64 and the new day would be day 401: no date is put in
    place of the start date, [filter] raises.  With magnitude zero the
    remainder is not defined and [filter] raises as well. *)
Lemma realign_beyond_the_year_raises :
  (truthy (exact_dates every_hundredth_day) = false
   /\ parse_dates every_hundredth_day = Val (TS (date 2020 12 30), None)
   /\ dayofyear (date 2020 12 30) = 365
   /\ 0 < (365 - 1) mod 100
   /\ ceiling (365 - 1) 100 * 100 + 1 = 401
   /\ align_start every_hundredth_day (TS (date 2020 12 30))
      = Raise ValueError
   /\ filter every_hundredth_day = inl ErrorApplying)
  /\ (parse_dates every_zeroth_day = Val (TS (date 2020 1 1), None)
      /\ align_start every_zeroth_day (TS (date 2020 1 1))
         = Raise ZeroDivisionError
      /\ filter every_zeroth_day = inl UnknownErrorApplying).
Proof. repeat split; vm_compute; reflexivity. Qed.

(** C2, amended.  With [exact_dates] false and period ["5D"], a start date
    on day 7 of its year is realigned to day 11 of the same year, 11
    January: [(7 - 1) mod 5 = 1 > 0] and [ceil(6 / 5) * 5 + 1 = 11]. *)
Theorem day_7_period_5D (self : DateTimeFilter) (t : Timestamp) :
  truthy (exact_dates self) = false ->
  period self = PStr "5D" ->
  well_formed t = true ->
  dayofyear t = 7 ->
  align_start self (TS t) = Val (TS (date (year t) 1 11))
  /\ dayofyear (date (year t) 1 11) = 11.
Proof.
  intros He Hp Hw Hj. split; [|reflexivity].
  rewrite (align_start_day_period self t "5" He Hp Hw 5 eq_refl), Hj.
  change (5 =? 0) with false. change (0 <? (7 - 1) mod 5) with true.
  cbv iota.
  replace (ceil_truediv (7 - 1) 5 * 5 + 1) with 11 by (vm_compute; reflexivity).
  destruct (well_formed_clock t Hw) as (Hy & Hfirst & _).
  pose proof (days_in_year_le (year t)) as Y.
  rewrite (to_datetime_year_day 11 (year t) Hy).
  - unfold date. destruct (is_leap (year t)); reflexivity.
  - unfold first_day, last_day.
    destruct (Z.eqb_spec (year t) 1677) as [E|_]; [specialize (Hfirst E); lia|].
    destruct (year t =? 2262); lia.
  - lia.
Qed.

Lemma day_7_period_5D_witness :
  (truthy (exact_dates every_fifth_day) = false
   /\ period every_fifth_day = PStr "5D"
   /\ well_formed (date 2021 1 7) = true
   /\ dayofyear (date 2021 1 7) = 7)
  /\ align_start every_fifth_day (TS (date 2021 1 7))
     = Val (TS (date 2021 1 11))
  /\ dayofyear (date 2021 1 11) = 11.
Proof.
  split.
  - split; [reflexivity|]. split; [reflexivity|]. split; reflexivity.
  - apply (day_7_period_5D every_fifth_day (date 2021 1 7)); reflexivity.
Defined.

(** C2 as stated fails: day 7 of 2020 is realigned to day 11, not to
    day 6. *)
Lemma day_7_is_not_realigned_to_day_6 :
  dayofyear (date 2020 1 7) = 7
  /\ align_start
       (instance (PStr "%Y-%m-%d") (PStr "01/07/2020") PNone (PStr "5D")
          false false)
       (TS (date 2020 1 7))
     = Val (TS (date 2020 1 11))
  /\ dayofyear (date 2020 1 11) = 11
  /\ dayofyear (date 2020 1 11) <> 6
  /\ run (kw [("pattern", PStr "%Y-%m-%d"); ("start", PStr "01/07/2020");
              ("period", PStr "5D"); ("exact_dates", PBool false)])
     = inr ["2020-01-11"].
Proof.
  split; [reflexivity|]. split; [vm_compute; reflexivity|].
  split; [reflexivity|]. split; [discriminate|]. vm_compute; reflexivity.
Qed.

(** C3, where the code departs from it.  A configuration without a period
    and with [exact_dates] false makes [filter] raise, whatever its dates:
    the unit of the period is looked up in [None]. *)
Theorem filter_without_period_raises
    (self : DateTimeFilter)
    (start_date : date_value) (end_date : option date_value) :
  period self = PNone ->
  truthy (exact_dates self) = false ->
  parse_dates self = Val (start_date, end_date) ->
  filter self = inl UnknownErrorApplying.
Proof.
  intros Hp He Hd. unfold filter. rewrite Hd.
  unfold generate, align_start, aligns. rewrite He, Hp. reflexivity.
Qed.

(** Pattern and start alone: a configuration [__init__] accepts. *)
Lemma filter_without_period_raises_witness :
  (__init__ (kw [("pattern", PStr "%Y-%m-%d"); ("start", PStr "01/01/2020")])
   = inr start_only
   /\ period start_only = PNone
   /\ truthy (exact_dates start_only) = false
   /\ parse_dates start_only = Val (TS (date 2020 1 1), None))
  /\ filter start_only = inl UnknownErrorApplying.
Proof.
  split.
  - split; [vm_compute; reflexivity|]. split; [reflexivity|].
    split; [reflexivity | vm_compute; reflexivity].
  - apply (filter_without_period_raises _ (TS (date 2020 1 1)) None);
      [reflexivity | reflexivity | vm_compute; reflexivity].
Defined.

(** C4.  Pattern ["%Y-%m-%d"], start ["01/01/2020"], end ["01/10/2020"],
    period ["5D"] and exact dates give 1 and 6 January 2020. *)
Theorem every_fifth_day_from_the_exact_start :
  run (kw [("pattern", PStr "%Y-%m-%d"); ("start", PStr "01/01/2020");
           ("end", PStr "01/10/2020"); ("period", PStr "5D");
           ("exact_dates", PBool true)])
  = inr ["2020-01-01"; "2020-01-06"].
Proof. vm_compute. reflexivity. Qed.



(** C6, amended.  Keyword arguments with pattern, start and end but no
    period are refused by [__init__] with the missing-period error,
    whatever the dates are: nothing is parsed before [filter] is called. *)
Theorem end_without_period_is_refused (kwargs : gmap string pyval) :
  is_Some (kwargs !! "pattern") ->
  is_Some (kwargs !! "start") ->
  is_Some (kwargs !! "end") ->
  kwargs !! "period" = None ->
  __init__ kwargs = inl PeriodRequired /\ run kwargs = inl PeriodRequired.
Proof.
  intros Hpat Hstart Hend Hper.
  assert (E : __init__ kwargs = inl PeriodRequired).
  { unfold __init__, __required_params, contains. cbn [List.find].
    rewrite !bool_decide_eq_true_2 by assumption. cbn [negb].
    rewrite Hper.
    rewrite (bool_decide_eq_false_2 (is_Some None)) by (apply is_Some_None).
    reflexivity. }
  split; [exact E|]. unfold run. now rewrite E.
Qed.

(** The error comes although neither date could be parsed. *)
Lemma end_without_period_is_refused_witness :
  (is_Some (end_but_no_period !! "pattern")
   /\ is_Some (end_but_no_period !! "start")
   /\ is_Some (end_but_no_period !! "end")
   /\ end_but_no_period !! "period" = None
   /\ to_datetime (PStr "13/45/2020") "%m/%d/%Y" = Raise ValueError
   /\ to_datetime (PStr "tomorrow") "%m/%d/%Y" = Raise ValueError)
  /\ __init__ end_but_no_period = inl PeriodRequired
  /\ run end_but_no_period = inl PeriodRequired.
Proof.
  split.
  - split; [vm_compute; eauto|]. split; [vm_compute; eauto|].
    split; [vm_compute; eauto|]. split; [vm_compute; reflexivity|].
    split; vm_compute; reflexivity.
  - apply end_without_period_is_refused;
      [vm_compute; eauto | vm_compute; eauto | vm_compute; eauto
      | vm_compute; reflexivity].
Defined.

(** C6 as stated fails: with an end date and no period, a missing pattern
    or a missing start date is what [__init__] reports; the check of the
    required parameters comes first. *)
Lemma required_parameters_come_before_the_period :
  (is_Some (kw [("end", PStr "01/10/2020")] !! "end")
   /\ kw [("end", PStr "01/10/2020")] !! "period" = None
   /\ __init__ (kw [("end", PStr "01/10/2020")])
      = inl (RequiredParameterNotProvided "pattern")
   /\ run (kw [("end", PStr "01/10/2020")])
      = inl (RequiredParameterNotProvided "pattern"))
  /\ (is_Some (kw [("pattern", PStr "%Y"); ("end", PStr "01/10/2020")] !! "end")
      /\ kw [("pattern", PStr "%Y"); ("end", PStr "01/10/2020")] !! "period"
         = None
      /\ __init__ (kw [("pattern", PStr "%Y"); ("end", PStr "01/10/2020")])
         = inl (RequiredParameterNotProvided "start"))
  /\ RequiredParameterNotProvided "pattern" <> PeriodRequired
  /\ RequiredParameterNotProvided "start" <> PeriodRequired.
Proof.
  split; [|split; [|split; discriminate]].
  - split; [eexists; reflexivity|]. repeat split; vm_compute; reflexivity.
  - split; [eexists; reflexivity|]. split; vm_compute; reflexivity.
Qed.

(** C7, amended.  When [to_datetime] refuses the start string, or the end
    string, under the format [has_time] selects, [filter] raises the
    invalid-date error and produces no values.  A string is refused when
    the format does not match the whole of it, and when what it reads is
    no date of the calendar or is outside pandas' clock. *)
Theorem refused_date_fails_filter (self : DateTimeFilter) (s : string) :
  start self = PStr s ->
  to_datetime (PStr s) (date_format self) = Raise ValueError
  \/ (exists e, end_ self = PStr e
                /\ to_datetime (PStr e) (date_format self) = Raise ValueError) ->
  filter self = inl (InvalidStartOrEnd true).
Proof.
  intros Hs H. unfold filter, parse_dates, date_format in *. rewrite Hs.
  destruct (truthy (has_time self));
    (destruct H as [H|(e & He & H)];
     [rewrite H; reflexivity|];
     destruct (to_datetime (PStr s) _) as [sd|x] eqn:E; cbn [bind];
     [rewrite He; cbn [is_not_None]; rewrite H; reflexivity
     |rewrite (to_datetime_raises _ _ _ E); reflexivity]).
Qed.

(** Month 13, which the format does not match, and 30 February, which is
    no date. *)
Lemma refused_date_fails_filter_witness :
  ((start month_13 = PStr "13/45/2020"
    /\ re_match (compile "%m/%d/%Y") "13/45/2020" found0 = None
    /\ to_datetime (PStr "13/45/2020") (date_format month_13)
       = Raise ValueError)
   /\ filter month_13 = inl (InvalidStartOrEnd true))
  /\ ((start february_30 = PStr "02/30/2020"
       /\ re_match (compile "%m/%d/%Y") "02/30/2020" found0
          = Some (mkFound 2020 2 30 0 0 0 None, "")
       /\ valid_date 2020 2 30 = false
       /\ to_datetime (PStr "02/30/2020") (date_format february_30)
          = Raise ValueError)
      /\ filter february_30 = inl (InvalidStartOrEnd true)).
Proof.
  split; split.
  - split; [reflexivity|]. split; vm_compute; reflexivity.
  - apply (refused_date_fails_filter _ "13/45/2020"); [reflexivity|].
    left. vm_compute. reflexivity.
  - split; [reflexivity|]. split; [vm_compute; reflexivity|].
    split; vm_compute; reflexivity.
  - apply (refused_date_fails_filter _ "02/30/2020"); [reflexivity|].
    left. vm_compute. reflexivity.
Defined.

(** C7 as stated fails: ["1/5/2020"] and ["1/ 5/2020"] are not of the form
    mm/dd/yyyy, yet they are read as 5 January 2020 and a value is
    produced. *)
Lemma unpadded_date_is_accepted :
  to_datetime (PStr "1/5/2020") "%m/%d/%Y" = Val (TS (date 2020 1 5))
  /\ run (kw [("pattern", PStr "%Y-%m-%d"); ("start", PStr "1/5/2020");
              ("exact_dates", PBool true)])
     = inr ["2020-01-05"]
  /\ run (kw [("pattern", PStr "%Y-%m-%d"); ("start", PStr "1/ 5/2020");
              ("exact_dates", PBool true)])
     = inr ["2020-01-05"].
Proof. repeat split; vm_compute; reflexivity. Qed.

(** C8, amended.  A period is checked only where it is used.  With
    [exact_dates] false and a period that ends in [D], a magnitude that
    [int] does not read makes [filter] raise 'Error applying', and a
    magnitude of zero 'Unknown error'.  With an end date, a period without
    any letter, and a period made of digits and the unit [X], is no
    frequency for [date_range]: [filter] raises 'Error applying'. *)
Theorem unusable_period_fails_filter
    (self : DateTimeFilter) (t : Timestamp) (end_date : option date_value) :
  parse_dates self = Val (TS t, end_date) ->
  (forall p,
      truthy (exact_dates self) = false ->
      period self = PStr (p +:+ "D") ->
      (int_opt p = None -> filter self = inl ErrorApplying)
      /\ (int_opt p = Some 0 -> filter self = inl UnknownErrorApplying))
  /\ (forall p e,
        end_date = Some (TS e) ->
        period self = PStr p ->
        has_letter p = false
        \/ (exists ds, all_digits ds = true /\ p = ds +:+ "X") ->
        filter self = inl ErrorApplying).
Proof.
  intros Hd. pose proof (parse_dates_well_formed self t end_date Hd) as Hw.
  split.
  - intros p He Hp. split; intros Hn.
    + apply (filter_generate_raises self _ _ ValueError Hd).
      unfold generate.
      rewrite (align_start_day_period_int self t p He Hp Hw).
      unfold int. now rewrite Hn.
    + apply (filter_generate_raises self _ _ ZeroDivisionError Hd).
      unfold generate.
      rewrite (align_start_day_period_int self t p He Hp Hw).
      unfold int. now rewrite Hn.
  - intros p e -> Hp H.
    apply (filter_generate_raises self _ _ ValueError Hd).
    assert (U : slice_last p <> "D" /\ to_offset p = Raise ValueError).
    { destruct H as [H|(ds & D & ->)].
      - split; [now apply slice_last_no_letter | now apply to_offset_no_letter].
      - split; [rewrite slice_last_app; discriminate
               | now apply to_offset_unit_X]. }
    destruct U as [U O].
    unfold generate.
    rewrite (align_start_skipped self (TS t))
      by (right; exists p; split; [exact Hp | exact U]).
    cbn [bind all_dates]. unfold date_range. rewrite Hp, O. reflexivity.
Qed.

(** Period ["xD"], whose magnitude is no integer; and, with an end date,
    the periods ["5"] and ["5X"]. *)
Lemma unusable_period_fails_filter_witness :
  (parse_dates bad_magnitude = Val (TS (date 2020 1 7), None)
   /\ truthy (exact_dates bad_magnitude) = false
   /\ period bad_magnitude = PStr ("x" +:+ "D")
   /\ int_opt "x" = None
   /\ filter bad_magnitude = inl ErrorApplying)
  /\ (parse_dates bare_number_period
      = Val (TS (date 2020 1 7), Some (TS (date 2020 1 20)))
      /\ period bare_number_period = PStr "5"
      /\ has_letter "5" = false
      /\ filter bare_number_period = inl ErrorApplying)
  /\ (parse_dates unknown_unit_period
      = Val (TS (date 2020 1 7), Some (TS (date 2020 1 20)))
      /\ period unknown_unit_period = PStr ("5" +:+ "X")
      /\ all_digits "5" = true
      /\ filter unknown_unit_period = inl ErrorApplying).
Proof.
  assert (P1 : parse_dates bad_magnitude = Val (TS (date 2020 1 7), None))
    by (vm_compute; reflexivity).
  assert (P2 : parse_dates bare_number_period
               = Val (TS (date 2020 1 7), Some (TS (date 2020 1 20))))
    by (vm_compute; reflexivity).
  assert (P3 : parse_dates unknown_unit_period
               = Val (TS (date 2020 1 7), Some (TS (date 2020 1 20))))
    by (vm_compute; reflexivity).
  split; [|split].
  - split; [exact P1|]. split; [reflexivity|]. split; [reflexivity|].
    split; [reflexivity|].
    destruct (unusable_period_fails_filter bad_magnitude (date 2020 1 7) None P1)
      as [H _].
    apply (H "x"); reflexivity.
  - split; [exact P2|]. split; [reflexivity|]. split; [reflexivity|].
    destruct (unusable_period_fails_filter bare_number_period (date 2020 1 7)
                (Some (TS (date 2020 1 20))) P2) as [_ H].
    apply (H "5" (date 2020 1 20)); [reflexivity | reflexivity|].
    left. reflexivity.
  - split; [exact P3|]. split; [reflexivity|]. split; [reflexivity|].
    destruct (unusable_period_fails_filter unknown_unit_period (date 2020 1 7)
                (Some (TS (date 2020 1 20))) P3) as [_ H].
    apply (H "5X" (date 2020 1 20)); [reflexivity | reflexivity|].
    right. exists "5". split; reflexivity.
Defined.

(** C8 as stated fails: without an end date, a period with a unit that is
    no frequency, with magnitude zero (and exact dates), or with a negative
    magnitude is not refused, and the start date is produced. *)
Lemma unchecked_periods_produce_output :
  (to_offset "5X" = Raise ValueError
   /\ run (kw [("pattern", PStr "%Y-%m-%d"); ("start", PStr "01/07/2020");
               ("period", PStr "5X")])
      = inr ["2020-01-07"])
  /\ (int_opt "0" = Some 0
      /\ run (kw [("pattern", PStr "%Y-%m-%d"); ("start", PStr "01/07/2020");
                  ("period", PStr "0D"); ("exact_dates", PBool true)])
         = inr ["2020-01-07"])
  /\ (int_opt "-5" = Some (-5)
      /\ run (kw [("pattern", PStr "%Y-%m-%d"); ("start", PStr "01/07/2020");
                  ("period", PStr "-5D")])
         = inr ["2020-01-07"]).
Proof. repeat split; vm_compute; reflexivity. Qed.

(** C9, amended.  A call of [filter] that returns appends to the values of
    the instance a sequence that depends on the configuration alone: on a
    fresh instance the values are that sequence, and every further call on
    the same instance appends it once more. *)
Theorem filter_appends_the_same_dates (self self' : DateTimeFilter) :
  filter self = inr self' ->
  exists out,
    self' = set_values self (values self ++ out)
    /\ forall vs, filter (set_values self vs) = inr (set_values self (vs ++ out)).
Proof.
  unfold filter.
  change (parse_dates (set_values self ?vs)) with (parse_dates self).
  destruct (parse_dates self) as [[sd ed]|[]]; try discriminate.
  destruct (generate self sd ed) as [r|[]] eqn:G; try discriminate.
  intros H; injection H as <-.
  unfold generate in G.
  destruct (align_start self sd) as [sd'|] eqn:A; cbn [bind] in G;
    [|discriminate].
  destruct (all_dates self sd' ed) as [dates|] eqn:D; cbn [bind] in G;
    [|discriminate].
  destruct (append_formatted_acc _ _ _ _ G) as (out & -> & Hout).
  exists out. split; [reflexivity|]. intros vs.
  unfold generate.
  change (align_start (set_values self vs) sd) with (align_start self sd).
  rewrite A. cbn [bind].
  change (all_dates (set_values self vs) sd' ed) with (all_dates self sd' ed).
  rewrite D. cbn [bind].
  change (pattern (set_values self vs)) with (pattern self).
  change (values (set_values self vs)) with vs.
  now rewrite Hout.
Qed.

Lemma filter_appends_the_same_dates_witness :
  filter exact_start_only = inr (set_values exact_start_only ["2020-01-01"])
  /\ exists out,
       set_values exact_start_only ["2020-01-01"]
       = set_values exact_start_only (values exact_start_only ++ out)
       /\ forall vs,
            filter (set_values exact_start_only vs)
            = inr (set_values exact_start_only (vs ++ out)).
Proof.
  split; [vm_compute; reflexivity|].
  apply (filter_appends_the_same_dates exact_start_only).
  vm_compute. reflexivity.
Defined.

(** C9 as stated fails: the values after a second call on the same
    instance are not those after the first. *)
Lemma second_call_of_filter_appends_again :
  filter exact_start_only = inr (set_values exact_start_only ["2020-01-01"])
  /\ filter (set_values exact_start_only ["2020-01-01"])
     = inr (set_values exact_start_only ["2020-01-01"; "2020-01-01"])
  /\ ["2020-01-01"] <> ["2020-01-01"; "2020-01-01"].
Proof. split; [|split]; [vm_compute; reflexivity.. | discriminate]. Qed.

(** C10, amended.  With [exact_dates] false and a period that ends in a
    lowercase [d], the start date is not aligned, whatever it is.  The
    enumeration goes on with that period as [date_range] reads it: for a
    period of [n] days written in digits and an end date, the values are
    the start date as parsed and the dates [n], [2n], ... days after it, up
    to the end date, formatted with the pattern.  (The pattern is one of
    tabulated directives, and stride and end date are within 64 bits of
    nanoseconds.) *)
Theorem lowercase_d_is_not_aligned
    (self : DateTimeFilter) (p : string) :
  truthy (exact_dates self) = false ->
  period self = PStr (p +:+ "d") ->
  (forall start_date, align_start self start_date = Val start_date)
  /\ (forall n t e pat,
        all_digits p = true ->
        int_opt p = Some n ->
        parse_dates self = Val (TS t, Some (TS e)) ->
        pattern self = PStr pat ->
        tabulated pat = true ->
        stride_fits (n * 86400) e = true ->
        filter self
        = inr (set_values self
                 (values self
                  ++ ((fun k =>
                         format_with
                           (of_seconds (to_seconds t + k * (n * 86400))) pat)
                      <$> seqZ 0 ((to_seconds e - to_seconds t)
                                  / (n * 86400) + 1))))).
Proof.
  intros _ Hp.
  assert (A : forall start_date, align_start self start_date = Val start_date).
  { intros start_date. apply align_start_skipped. right. exists (p +:+ "d").
    split; [exact Hp | apply slice_last_lowercase]. }
  split; [exact A|].
  intros n t e pat D I Hd Hpat _ F.
  apply stride_fits_spec in F.
  apply (filter_with_end self t t e (p +:+ "d") pat n 86400 Hd (A (TS t)) Hp);
    [|lia|exact Hpat].
  apply to_offset_lowercase_days; [exact D | exact I|].
  assert (K : (9223372036 <? 2 ^ 63) = true) by reflexivity.
  apply Z.ltb_lt in K. lia.
Qed.

(** 7 to 20 January 2020 with period ["5d"]: 7, 12 and 17 January. *)
Lemma lowercase_d_is_not_aligned_witness :
  (truthy (exact_dates lowercase_fifth_day) = false
   /\ period lowercase_fifth_day = PStr ("5" +:+ "d")
   /\ all_digits "5" = true
   /\ int_opt "5" = Some 5
   /\ parse_dates lowercase_fifth_day
      = Val (TS (date 2020 1 7), Some (TS (date 2020 1 20)))
   /\ pattern lowercase_fifth_day = PStr "%Y-%m-%d"
   /\ tabulated "%Y-%m-%d" = true
   /\ stride_fits (5 * 86400) (date 2020 1 20) = true)
  /\ align_start lowercase_fifth_day (TS (date 2020 1 7))
     = Val (TS (date 2020 1 7))
  /\ filter lowercase_fifth_day
     = inr (set_values lowercase_fifth_day
              ["2020-01-07"; "2020-01-12"; "2020-01-17"]).
Proof.
  assert (P : parse_dates lowercase_fifth_day
              = Val (TS (date 2020 1 7), Some (TS (date 2020 1 20))))
    by (vm_compute; reflexivity).
  assert (F : stride_fits (5 * 86400) (date 2020 1 20) = true)
    by (vm_compute; reflexivity).
  split.
  - split; [reflexivity|]. split; [reflexivity|]. split; [reflexivity|].
    split; [reflexivity|]. split; [exact P|]. split; [reflexivity|].
    split; [reflexivity | exact F].
  - destruct (lowercase_d_is_not_aligned lowercase_fifth_day "5"
                eq_refl eq_refl) as [A E].
    split; [exact (A (TS (date 2020 1 7)))|].
    exact (E 5 (date 2020 1 7) (date 2020 1 20) "%Y-%m-%d"
             eq_refl eq_refl P eq_refl eq_refl F).
Defined.

(** C10 as stated fails for a period that ends in [d] and names no
    frequency: the start date is not aligned, and with an end date the
    enumeration does not proceed, [filter] raises. *)
Lemma lowercase_d_without_a_magnitude_fails :
  truthy (exact_dates lowercase_no_magnitude) = false
  /\ period lowercase_no_magnitude = PStr ("x" +:+ "d")
  /\ parse_dates lowercase_no_magnitude
     = Val (TS (date 2020 1 7), Some (TS (date 2020 1 20)))
  /\ align_start lowercase_no_magnitude (TS (date 2020 1 7))
     = Val (TS (date 2020 1 7))
  /\ to_offset "xd" = Raise ValueError
  /\ filter lowercase_no_magnitude = inl ErrorApplying.
Proof. repeat split; vm_compute; reflexivity. Qed.

(** ** Further properties: the constructor *)

Section InitFacts.

Lemma contains_true (kwargs : gmap string pyval) (key : string) :
  contains kwargs key = true <-> is_Some (kwargs !! key).
Proof. unfold contains. apply bool_decide_eq_true. Qed.

Lemma contains_false (kwargs : gmap string pyval) (key : string) :
  contains kwargs key = false <-> kwargs !! key = None.
Proof.
  unfold contains. rewrite bool_decide_eq_false, <- eq_None_not_Some.
  reflexivity.
Qed.

Lemma or_False_not_None (v : pyval) : or_False v <> PNone.
Proof. destruct v; discriminate. Qed.

End InitFacts.

(** X1.  The required parameters are looked for in the order pattern,
    start, and the first one missing is the one the error names: without
    [pattern] the constructor raises for [pattern], whatever else is given;
    with [pattern] and without [start] it raises for [start]. *)
Theorem missing_required_parameter (kwargs : gmap string pyval) :
  (kwargs !! "pattern" = None ->
   __init__ kwargs = inl (RequiredParameterNotProvided "pattern"))
  /\ (is_Some (kwargs !! "pattern") -> kwargs !! "start" = None ->
      __init__ kwargs = inl (RequiredParameterNotProvided "start")).
Proof.
  unfold __init__, __required_params. cbn [List.find]. split.
  - intros H. apply contains_false in H. now rewrite H.
  - intros Hp Hs. apply contains_true in Hp. apply contains_false in Hs.
    now rewrite Hp, Hs.
Qed.

(** Only a start date, and only a pattern. *)
Lemma missing_required_parameter_witness :
  (kw [("start", PStr "01/01/2020")] !! "pattern" = None
   /\ is_Some (kw [("pattern", PStr "%Y")] !! "pattern")
   /\ kw [("pattern", PStr "%Y")] !! "start" = None)
  /\ __init__ (kw [("start", PStr "01/01/2020")])
     = inl (RequiredParameterNotProvided "pattern")
  /\ __init__ (kw [("pattern", PStr "%Y")])
     = inl (RequiredParameterNotProvided "start").
Proof.
  split.
  - split; [reflexivity|]. split; [eexists; reflexivity | reflexivity].
  - split.
    + apply (missing_required_parameter (kw [("start", PStr "01/01/2020")])).
      reflexivity.
    + apply (missing_required_parameter (kw [("pattern", PStr "%Y")]));
        [eexists; reflexivity | reflexivity].
Defined.

(** X2.  The constructor returns an instance exactly when [pattern] and
    [start] are given and [end] is given only together with [period]: it
    looks at which keywords are there, never at their values. *)
Theorem init_accepts (kwargs : gmap string pyval) :
  (exists self, __init__ kwargs = inr self)
  <-> is_Some (kwargs !! "pattern")
      /\ is_Some (kwargs !! "start")
      /\ (is_Some (kwargs !! "end") -> is_Some (kwargs !! "period")).
Proof.
  unfold __init__, __required_params. cbn [List.find].
  rewrite <- !contains_true.
  destruct (contains kwargs "pattern"), (contains kwargs "start"),
    (contains kwargs "end"), (contains kwargs "period"); cbn; split;
    first
      [ intros [self H]; discriminate H
      | intros (H1 & H2 & H3); first [discriminate | discriminate (H3 eq_refl)]
      | intros _; eauto
      | intros _; repeat split; intros; first [assumption | discriminate] ].
Qed.

Lemma init_accepts_witness : exists self, __init__ timed_start = inr self.
Proof.
  apply (init_accepts timed_start). split; [eexists; reflexivity|].
  split; [eexists; reflexivity|]. intros [v H]. discriminate H.
Defined.

(** X3.  On the instance the constructor returns, [has_time] and
    [exact_dates] are never [None]: a flag given with a value other than
    [None] is kept as it is, a flag left out or given as [None] is
    [False]. *)
Theorem flags_are_never_None
    (kwargs : gmap string pyval) (self : DateTimeFilter) :
  __init__ kwargs = inr self ->
  (has_time self <> PNone /\ exact_dates self <> PNone)
  /\ (forall v, kwargs !! "has_time" = Some v -> v <> PNone ->
      has_time self = v)
  /\ (kwargs !! "has_time" = None \/ kwargs !! "has_time" = Some PNone ->
      has_time self = PBool false)
  /\ (forall v, kwargs !! "exact_dates" = Some v -> v <> PNone ->
      exact_dates self = v)
  /\ (kwargs !! "exact_dates" = None \/ kwargs !! "exact_dates" = Some PNone ->
      exact_dates self = PBool false).
Proof.
  unfold __init__. destruct (List.find _ _); [discriminate|].
  destruct (_ && _); [discriminate|].
  intros H; injection H as <-. cbn [has_time exact_dates]. unfold get.
  split; [split; apply or_False_not_None|].
  split; [intros v -> Hv; destruct v; [contradiction|reflexivity..]|].
  split; [intros [-> | ->]; reflexivity|].
  split; [intros v -> Hv; destruct v; [contradiction|reflexivity..]|].
  intros [-> | ->]; reflexivity.
Qed.

(** [has_time] given, [exact_dates] left out. *)
Lemma flags_are_never_None_witness :
  __init__ timed_start
  = inr (instance (PStr "%H:%M") (PStr "01/01/2020 10:30:00") PNone PNone
           true false)
  /\ has_time (instance (PStr "%H:%M") (PStr "01/01/2020 10:30:00") PNone
                 PNone true false) <> PNone
  /\ exact_dates (instance (PStr "%H:%M") (PStr "01/01/2020 10:30:00") PNone
                    PNone true false) <> PNone.
Proof.
  split; [vm_compute; reflexivity|].
  apply (flags_are_never_None timed_start). vm_compute. reflexivity.
Defined.

(** X4.  A keyword that is neither a required nor an optional parameter
    is ignored: the constructor, and the values [filter] then produces, are
    the same with and without it. *)
Theorem unknown_keyword_is_ignored
    (kwargs : gmap string pyval) (key : string) (v : pyval) :
  ~ In key (__required_params ++ __optional_params) ->
  __init__ (<[key := v]> kwargs) = __init__ kwargs
  /\ run (<[key := v]> kwargs) = run kwargs.
Proof.
  intros H. cbn in H.
  assert (E : __init__ (<[key := v]> kwargs) = __init__ kwargs).
  { unfold __init__, __required_params, contains, get. cbn [List.find].
    rewrite !lookup_insert_ne by (intros ->; tauto). reflexivity. }
  split; [exact E|]. unfold run. now rewrite E.
Qed.

Lemma unknown_keyword_is_ignored_witness :
  ~ In "verbose" (__required_params ++ __optional_params)
  /\ __init__ (<["verbose" := PBool true]> timed_start) = __init__ timed_start
  /\ run (<["verbose" := PBool true]> timed_start) = run timed_start.
Proof.
  assert (H : ~ In "verbose" (__required_params ++ __optional_params)).
  { simpl. intros [H|[H|[H|[H|[H|[H|[]]]]]]]; discriminate H. }
  split; [exact H|].
  apply (unknown_keyword_is_ignored timed_start "verbose" (PBool true) H).
Defined.

(** ** Further properties: the alignment of the start date *)

Section JulianFacts.

Lemma digits_of_all_digits (fuel : nat) :
  forall n acc, all_digits acc = true -> all_digits (digits_of fuel n acc) = true.
Proof.
  induction fuel as [|fuel IH]; intros n acc H; cbn [digits_of]; [exact H|].
  assert (A : all_digits (String (digit_char (n mod 10)) acc) = true).
  { cbn [all_digits]. now rewrite (is_digit_digit_char _ (mod_10_digit n)), H. }
  destruct (n <? 10); [exact A | apply IH, A].
Qed.

Lemma digits_of_length (fuel : nat) :
  forall n acc,
    (String.length acc + 1 <= String.length (digits_of (S fuel) n acc))%nat.
Proof.
  induction fuel as [|fuel IH]; intros n acc.
  - cbn [digits_of]. destruct (n <? 10); cbn [String.length]; lia.
  - change (digits_of (S (S fuel)) n acc)
      with (if n <? 10 then String (digit_char (n mod 10)) acc
            else digits_of (S fuel) (n / 10) (String (digit_char (n mod 10)) acc)).
    destruct (n <? 10); [cbn [String.length]; lia|].
    specialize (IH (n / 10) (String (digit_char (n mod 10)) acc)).
    cbn [String.length] in IH. lia.
Qed.

Lemma format_d_all_digits (n : Z) : 0 <= n -> all_digits (format_d n) = true.
Proof.
  intros H. unfold format_d.
  replace (n <? 0) with false by (symmetry; apply Z.ltb_ge; lia).
  now apply digits_of_all_digits.
Qed.

Lemma format_d_length_1 (n : Z) : 0 <= n -> (1 <= String.length (format_d n))%nat.
Proof.
  intros H. unfold format_d.
  replace (n <? 0) with false by (symmetry; apply Z.ltb_ge; lia).
  rewrite Nat.add_1_r. pose proof (digits_of_length (Z.to_nat (Z.log2 n)) n "").
  cbn [String.length] in *. lia.
Qed.

Lemma format_d_length_4 (n : Z) : 1000 <= n -> (4 <= String.length (format_d n))%nat.
Proof.
  intros H. unfold format_d.
  replace (n <? 0) with false by (symmetry; apply Z.ltb_ge; lia).
  assert (L : 9 <= Z.log2 n).
  { change 9 with (Z.log2 1000). apply Z.log2_le_mono. lia. }
  destruct (Z.to_nat (Z.log2 n)) as [|[|[|f]]] eqn:E; try lia.
  rewrite Nat.add_1_r.
  change (digits_of (S (S (S (S f)))) n "")
    with (if n <? 10 then String (digit_char (n mod 10)) ""
          else if n / 10 <? 10
               then String (digit_char (n / 10 mod 10)) (String (digit_char (n mod 10)) "")
               else if n / 10 / 10 <? 10
                    then String (digit_char (n / 10 / 10 mod 10))
                           (String (digit_char (n / 10 mod 10)) (String (digit_char (n mod 10)) ""))
                    else digits_of (S f) (n / 10 / 10 / 10)
                           (String (digit_char (n / 10 / 10 mod 10))
                              (String (digit_char (n / 10 mod 10))
                                 (String (digit_char (n mod 10)) "")))).
  replace (n <? 10) with false by (symmetry; apply Z.ltb_ge; lia).
  replace (n / 10 <? 10) with false
    by (symmetry; apply Z.ltb_ge; apply Z.div_le_lower_bound; lia).
  replace (n / 10 / 10 <? 10) with false
    by (symmetry; apply Z.ltb_ge; rewrite Z.div_div by lia;
        apply Z.div_le_lower_bound; lia).
  match goal with
  | |- context [digits_of (S f) ?m ?acc] =>
      pose proof (digits_of_length f m acc) as D
  end.
  cbn [String.length] in D. lia.
Qed.

(** An all-digit string of four characters or more starts with four digits. *)
Lemma four_digits (s : string) :
  all_digits s = true -> (4 <= String.length s)%nat ->
  exists a b c d r,
    s = String a (String b (String c (String d r)))
    /\ is_digit a = true /\ is_digit b = true
    /\ is_digit c = true /\ is_digit d = true.
Proof.
  intros A L.
  destruct s as [|a [|b [|c [|d r]]]]; cbn [String.length] in L; try lia.
  cbn [all_digits] in A.
  repeat (apply andb_prop in A; destruct A as [? A]).
  exists a, b, c, d, r. repeat split; assumption.
Qed.

Lemma digit_is_no_slash (c : ascii) : is_digit c = true -> Ascii.eqb c "/" = false.
Proof.
  destruct (Ascii.eqb_spec c "/") as [->|]; [discriminate | reflexivity].
Qed.

Lemma match_classes_rest (cs : list cls) :
  forall s t r,
    match_classes cs s = Some (t, r) ->
    s = t +:+ r /\ String.length t = List.length cs.
Proof.
  induction cs as [|c cs IH]; intros s t r H; cbn [match_classes] in H.
  - injection H as <- <-. split; reflexivity.
  - destruct s as [|a s]; [discriminate|].
    destruct (c a); [|discriminate].
    destruct (match_classes cs s) as [[t' r']|] eqn:E; [|discriminate].
    injection H as <- <-. destruct (IH _ _ _ E) as [-> L].
    split; [reflexivity | cbn; now rewrite L].
Qed.

Lemma try_alts_none {R} (alts : list (list cls))
    (k : string -> string -> option R) (s : string) :
  (forall alt t r, In alt alts -> match_classes alt s = Some (t, r) -> k t r = None) ->
  try_alts alts k s = None.
Proof.
  induction alts as [|alt alts IH]; intros H; cbn [try_alts]; [reflexivity|].
  destruct (match_classes alt s) as [[t r]|] eqn:E.
  - rewrite (H alt t r (or_introl eq_refl) E). apply IH.
    intros alt' t' r' Hin. apply H. now right.
  - apply IH. intros alt' t' r' Hin. apply H. now right.
Qed.

(** A day of the year of four digits or more is not read. *)
Lemma julian_refuses_four_digits (a b c d : ascii) (r : string)
    (its : list item) (f : found) :
  is_digit a = true -> is_digit b = true -> is_digit c = true ->
  is_digit d = true ->
  re_match (Dir "j" :: Lit "/" :: its)
    (String a (String b (String c (String d r)))) f = None.
Proof.
  intros Ha Hb Hc Hd. cbn [re_match]. apply try_alts_none.
  intros alt t r' Hin Hm.
  destruct (match_classes_rest _ _ _ _ Hm) as [E L].
  assert (Len : (1 <= List.length alt <= 3)%nat).
  { cbn in Hin.
    repeat (destruct Hin as [<-|Hin]; [cbn; lia|]). destruct Hin. }
  destruct (int_opt t); [|reflexivity].
  destruct t as [|t1 [|t2 [|t3 [|t4 t]]]]; cbn [String.length] in L; try lia.
  - change (String t1 "" +:+ r') with (String t1 r') in E.
    injection E as _ <-. cbn [re_match]. now rewrite (digit_is_no_slash _ Hb).
  - change (String t1 (String t2 "") +:+ r')
      with (String t1 (String t2 r')) in E.
    injection E as _ _ <-. cbn [re_match]. now rewrite (digit_is_no_slash _ Hc).
  - change (String t1 (String t2 (String t3 "")) +:+ r')
      with (String t1 (String t2 (String t3 r'))) in E.
    injection E as _ _ _ <-. cbn [re_match].
    now rewrite (digit_is_no_slash _ Hd).
Qed.

Lemma julian_refuses_three_digits (X : Z) (r : string) (f : found) :
  367 <= X <= 999 ->
  re_match [Dir "j"; Lit "/"; Dir "Y"] (format_d X +:+ String "/" r) f = None.
Proof.
  intros HX.
  assert (H : forallb
                (fun X => match re_match [Dir "j"; Lit "/"; Dir "Y"]
                                  (format_d X +:+ String "/" r) f with
                          | None => true
                          | Some _ => false
                          end) (seqZ 367 633) = true)
    by (vm_compute; reflexivity).
  pose proof (forallb_seqZ _ _ _ H X ltac:(lia)) as P. cbv beta in P.
  destruct (re_match _ _ f); [discriminate | reflexivity].
Qed.

Lemma digit_first_is_no_nat_string (a : ascii) (r : string) :
  is_digit a = true -> is_nat_string (String a r) = false.
Proof.
  intros H. unfold is_nat_string, nat_strings. cbn [existsb String.eqb].
  assert (N : Ascii.eqb a "N" = false)
    by (destruct (Ascii.eqb_spec a "N") as [->|]; [discriminate | reflexivity]).
  assert (n : Ascii.eqb a "n" = false)
    by (destruct (Ascii.eqb_spec a "n") as [->|]; [discriminate | reflexivity]).
  now rewrite N, n.
Qed.

Lemma to_datetime_beyond_366 (X : Z) (y : string) :
  366 < X ->
  to_datetime (PStr (format_d X +:+ "/" +:+ y)) "%j/%Y" = Raise ValueError.
Proof.
  intros HX. change ("/" +:+ y) with (String "/" y).
  assert (M : re_match [Dir "j"; Lit "/"; Dir "Y"]
                (format_d X +:+ String "/" y) found0 = None).
  { destruct (Z.le_gt_cases X 999) as [L|L].
    - apply julian_refuses_three_digits. lia.
    - destruct (four_digits (format_d X)) as (a & b & c & d & r & E & Ha & Hb & Hc & Hd).
      + apply format_d_all_digits. lia.
      + apply format_d_length_4. lia.
      + rewrite E. rewrite !append_cons.
        now apply julian_refuses_four_digits. }
  unfold to_datetime.
  assert (N : is_nat_string (format_d X +:+ String "/" y) = false).
  { pose proof (format_d_all_digits X ltac:(lia)) as A.
    pose proof (format_d_length_1 X ltac:(lia)) as L.
    destruct (format_d X) as [|a r]; [cbn in L; lia|].
    cbn [all_digits] in A. apply andb_prop in A. destruct A as [A _].
    rewrite append_cons. now apply digit_first_is_no_nat_string. }
  rewrite N. unfold strptime.
  change (compile "%j/%Y") with [Dir "j"; Lit "/"; Dir "Y"].
  now rewrite M.
Qed.

Lemma ceil_truediv_below_2_1075 (a n : Z) :
  1 <= a -> 0 < n < 2 ^ 1075 -> ceil_truediv a n = ceiling a n.
Proof.
  intros Ha Hn. unfold ceil_truediv.
  destruct (Z.leb_spec (a * 2 ^ 1075) n) as [L|L]; [|reflexivity].
  set (k := 2 ^ 1075) in *. nia.
Qed.

Lemma positive_remainder (a n : Z) :
  0 <= a -> n <> 0 -> 0 < a mod n -> 0 < n /\ 1 <= a.
Proof.
  intros Ha Hn Hr. split.
  - destruct (Z.lt_trichotomy n 0) as [N|[N|N]]; [|lia|exact N].
    pose proof (Z.mod_neg_bound a n N). lia.
  - destruct (Z.eq_dec a 0) as [E|E]; [rewrite E, Z.mod_0_l in Hr; lia|lia].
Qed.

End JulianFacts.

(** X5.  With [exact_dates] false and a period [nD], [0 < n < 2 ** 1075]:
    when the start date is off the period and the day to move it to,
    [ceil((j - 1) / n) * n + 1], is beyond 366, the date built from that
    day is refused and [filter] raises the error of its second block,
    'Error applying DateTimeFilter', with or without an end date. *)
Theorem realign_beyond_day_366_raises
    (self : DateTimeFilter) (t : Timestamp) (p : string) (n : Z)
    (end_date : option date_value) :
  truthy (exact_dates self) = false ->
  period self = PStr (p +:+ "D") ->
  well_formed t = true ->
  int_opt p = Some n ->
  0 < n < 2 ^ 1075 ->
  0 < (dayofyear t - 1) mod n ->
  366 < ceiling (dayofyear t - 1) n * n + 1 ->
  align_start self (TS t) = Raise ValueError
  /\ (parse_dates self = Val (TS t, end_date) ->
      filter self = inl ErrorApplying).
Proof.
  intros not_exact day_unit parsed magnitude.
  intros Hn Hr Hx.
  pose proof (dayofyear_bounds t parsed) as B.
  destruct (positive_remainder (dayofyear t - 1) n ltac:(lia) ltac:(lia) Hr)
    as [_ Ha].
  assert (A : align_start self (TS t) = Raise ValueError).
  { rewrite (align_start_day_period self t p not_exact day_unit parsed n magnitude).
    replace (n =? 0) with false by (symmetry; apply Z.eqb_neq; lia).
    replace (0 <? (dayofyear t - 1) mod n) with true
      by (symmetry; apply Z.ltb_lt; lia).
    rewrite (ceil_truediv_below_2_1075 (dayofyear t - 1) n Ha Hn).
    now apply to_datetime_beyond_366. }
  split; [exact A|]. intros Hd.
  apply (filter_generate_raises self _ _ ValueError Hd).
  unfold generate. now rewrite A.
Qed.

(** 30 December 2020, day 365, with period [100D]: day 401. *)
Lemma realign_beyond_day_366_raises_witness :
  (truthy (exact_dates every_hundredth_day) = false
   /\ period every_hundredth_day = PStr ("100" +:+ "D")
   /\ well_formed (date 2020 12 30) = true
   /\ int_opt "100" = Some 100
   /\ 0 < 100 < 2 ^ 1075
   /\ 0 < (dayofyear (date 2020 12 30) - 1) mod 100
   /\ 366 < ceiling (dayofyear (date 2020 12 30) - 1) 100 * 100 + 1
   /\ parse_dates every_hundredth_day = Val (TS (date 2020 12 30), None))
  /\ align_start every_hundredth_day (TS (date 2020 12 30)) = Raise ValueError
  /\ filter every_hundredth_day = inl ErrorApplying.
Proof.
  assert (B : 0 < 100 < 2 ^ 1075) by (split; reflexivity).
  assert (P : parse_dates every_hundredth_day = Val (TS (date 2020 12 30), None))
    by (vm_compute; reflexivity).
  split.
  - split; [reflexivity|]. split; [reflexivity|]. split; [reflexivity|].
    split; [reflexivity|]. split; [exact B|]. split; [reflexivity|].
    split; [reflexivity | exact P].
  - destruct (realign_beyond_day_366_raises every_hundredth_day
                (date 2020 12 30) "100" 100 None eq_refl eq_refl eq_refl
                eq_refl B eq_refl eq_refl) as [A F].
    split; [exact A | exact (F P)].
Defined.

(** X6.  With [exact_dates] false and a period [nD]: when the start date
    is off the period and the day to move it to is day 366 of a year of 365
    days, the start date becomes 1 January of the next year, a year that
    pandas' clock still holds. *)
Theorem realign_to_day_366_of_a_short_year
    (self : DateTimeFilter) (t : Timestamp) (p : string) (n : Z) :
  truthy (exact_dates self) = false ->
  period self = PStr (p +:+ "D") ->
  well_formed t = true ->
  int_opt p = Some n ->
  0 < (dayofyear t - 1) mod n ->
  ceiling (dayofyear t - 1) n * n + 1 = 366 ->
  is_leap (year t) = false ->
  year t < 2262 ->
  align_start self (TS t) = Val (TS (mkTimestamp (year t + 1) 1 1 0 0 0)).
Proof.
  intros not_exact day_unit parsed magnitude.
  intros Hr Hx Hl Hy.
  pose proof (dayofyear_bounds t parsed) as B.
  pose proof (well_formed_year t parsed) as Y.
  destruct (well_formed_clock t parsed) as (Yc & _ & _).
  assert (Hn0 : n <> 0).
  { intros ->. unfold ceiling in Hx. rewrite Z.div_0_r in Hx. lia. }
  destruct (positive_remainder (dayofyear t - 1) n ltac:(lia) Hn0 Hr)
    as [Hpos Ha].
  pose proof (ceiling_spec (dayofyear t - 1) n Hpos) as C.
  assert (Hq : 1 <= ceiling (dayofyear t - 1) n) by nia.
  assert (Hn : n <= 366) by nia.
  rewrite (align_start_day_period self t p not_exact day_unit parsed n magnitude).
  replace (n =? 0) with false by (symmetry; apply Z.eqb_neq; lia).
  replace (0 <? (dayofyear t - 1) mod n) with true
    by (symmetry; apply Z.ltb_lt; lia).
  rewrite (ceil_truediv_exact (dayofyear t - 1) n Ha ltac:(lia)), Hx.
  unfold to_datetime.
  change ("/" +:+ zero_pad 4 (year t)) with (String "/" (zero_pad 4 (year t))).
  rewrite not_nat_string_julian by lia.
  change (String "/" (zero_pad 4 (year t))) with ("/" +:+ zero_pad 4 (year t)).
  rewrite strptime_julian by lia.
  unfold build, date_of_year_day, days_in_year.
  cbn [f_julian f_year f_hour f_minute f_second]. rewrite Hl.
  change (366 <=? 365) with false. cbv iota.
  change (366 - 365) with 1.
  replace (month_day_of (is_leap (year t + 1)) 1) with (1, 1)
    by (destruct (is_leap (year t + 1)); reflexivity).
  assert (V : valid_date (year t + 1) 1 1 = true)
    by (apply valid_date_spec; cbn; lia).
  assert (W : well_formed (mkTimestamp (year t + 1) 1 1 0 0 0) = true).
  { apply midnight_well_formed; [exact V | lia|].
    change (day_of_year (year t + 1) 1 1) with 1.
    pose proof (days_in_year_le (year t + 1)).
    unfold first_day, last_day.
    destruct (Z.eqb_spec (year t + 1) 1677); [lia|].
    destruct (year t + 1 =? 2262); lia. }
  rewrite V, (well_formed_check_dts_bounds _ W).
  change (read_time 0 0 0) with true. cbn [andb].
  rewrite of_seconds_to_seconds; [reflexivity | exact V | reflexivity].
Qed.

(** 30 December 2021, day 364, with period [5D]: day 366 of 2021. *)
Lemma realign_to_day_366_of_a_short_year_witness :
  (truthy (exact_dates late_fifth_day) = false
   /\ period late_fifth_day = PStr ("5" +:+ "D")
   /\ well_formed (date 2021 12 30) = true
   /\ int_opt "5" = Some 5
   /\ 0 < (dayofyear (date 2021 12 30) - 1) mod 5
   /\ ceiling (dayofyear (date 2021 12 30) - 1) 5 * 5 + 1 = 366
   /\ is_leap 2021 = false
   /\ 2021 < 2262)
  /\ align_start late_fifth_day (TS (date 2021 12 30))
     = Val (TS (date 2022 1 1)).
Proof.
  split.
  - repeat (split; [reflexivity|]). reflexivity.
  - apply (realign_to_day_366_of_a_short_year late_fifth_day
             (date 2021 12 30) "5" 5); reflexivity.
Defined.

(** X7.  The quotient [(j - 1) / n] is a float.  With [exact_dates]
    false and a period [nD] whose magnitude is so large that the quotient
    rounds to zero, [(j - 1) * 2 ** 1075 <= n], and which [int] still
    reads (it has at most 4300 digits), a start date after 1 January is
    moved back to 1 January of its year, in the years after 1677, the
    first of pandas' clock. *)
Theorem realign_with_a_vanishing_quotient
    (self : DateTimeFilter) (t : Timestamp) (p : string) (n : Z) :
  truthy (exact_dates self) = false ->
  period self = PStr (p +:+ "D") ->
  well_formed t = true ->
  int_opt p = Some n ->
  1677 < year t ->
  2 <= dayofyear t ->
  (dayofyear t - 1) * 2 ^ 1075 <= n ->
  align_start self (TS t) = Val (TS (mkTimestamp (year t) 1 1 0 0 0)).
Proof.
  intros not_exact day_unit parsed magnitude.
  intros Hy Hj Hn.
  pose proof (dayofyear_bounds t parsed) as B.
  pose proof (days_in_year_le (year t)) as D.
  destruct (well_formed_clock t parsed) as (Y & _ & _).
  assert (K : (366 <? 2 ^ 1075) = true) by (vm_compute; reflexivity).
  apply Z.ltb_lt in K.
  assert (Hbig : dayofyear t - 1 < n).
  { set (k := 2 ^ 1075) in *. nia. }
  rewrite (align_start_day_period self t p not_exact day_unit parsed n magnitude).
  replace (n =? 0) with false by (symmetry; apply Z.eqb_neq; lia).
  rewrite (Z.mod_small (dayofyear t - 1) n) by lia.
  replace (0 <? dayofyear t - 1) with true by (symmetry; apply Z.ltb_lt; lia).
  unfold ceil_truediv.
  replace ((dayofyear t - 1) * 2 ^ 1075 <=? n) with true
    by (symmetry; apply Z.leb_le; exact Hn).
  change (0 * n + 1) with 1.
  rewrite (to_datetime_year_day 1 (year t) Y).
  - destruct (is_leap (year t)); reflexivity.
  - unfold first_day, last_day.
    destruct (Z.eqb_spec (year t) 1677); [lia|].
    destruct (year t =? 2262); lia.
  - lia.
Qed.

(** 3 January 2020 with a magnitude of [10 ** 324] days. *)
Lemma realign_with_a_vanishing_quotient_witness :
  (truthy (exact_dates beyond_float_range) = false
   /\ period beyond_float_range = PStr (String "1" (zeros 324) +:+ "D")
   /\ well_formed (date 2020 1 3) = true
   /\ int_opt (String "1" (zeros 324)) = Some (10 ^ 324)
   /\ 1677 < 2020
   /\ 2 <= dayofyear (date 2020 1 3)
   /\ (dayofyear (date 2020 1 3) - 1) * 2 ^ 1075 <= 10 ^ 324)
  /\ align_start beyond_float_range (TS (date 2020 1 3))
     = Val (TS (date 2020 1 1)).
Proof.
  assert (I : int_opt (String "1" (zeros 324)) = Some (10 ^ 324))
    by (vm_compute; reflexivity).
  assert (L : 2 <= dayofyear (date 2020 1 3)) by (vm_compute; discriminate).
  assert (B : (dayofyear (date 2020 1 3) - 1) * 2 ^ 1075 <= 10 ^ 324)
    by (vm_compute; discriminate).
  split.
  - split; [reflexivity|]. split; [reflexivity|]. split; [reflexivity|].
    split; [exact I|]. split; [reflexivity|]. split; [exact L | exact B].
  - apply (realign_with_a_vanishing_quotient beyond_float_range
             (date 2020 1 3) (String "1" (zeros 324)) (10 ^ 324)
             eq_refl eq_refl eq_refl I eq_refl L B).
Defined.

(** X8.  With [exact_dates] false and a period [nD] whose magnitude [int]
    reads (it has at most 4300 digits), the start date is kept as parsed
    when the magnitude is negative (the remainder is then never positive),
    when it is 1, and when the start date is 1 January and the magnitude is
    not zero. *)
Theorem realign_leaves_the_start
    (self : DateTimeFilter) (t : Timestamp) (p : string) (n : Z) :
  truthy (exact_dates self) = false ->
  period self = PStr (p +:+ "D") ->
  well_formed t = true ->
  int_opt p = Some n ->
  n < 0 \/ n = 1 \/ (n <> 0 /\ dayofyear t = 1) ->
  align_start self (TS t) = Val (TS t).
Proof.
  intros not_exact day_unit parsed magnitude.
  intros H.
  pose proof (dayofyear_bounds t parsed) as B.
  rewrite (align_start_day_period self t p not_exact day_unit parsed n magnitude).
  replace (n =? 0) with false by (symmetry; apply Z.eqb_neq; lia).
  replace (0 <? (dayofyear t - 1) mod n) with false; [reflexivity|].
  symmetry. apply Z.ltb_ge.
  destruct H as [N|[->|[N ->]]].
  - pose proof (Z.mod_neg_bound (dayofyear t - 1) n N). lia.
  - rewrite Z.mod_1_r. lia.
  - change (1 - 1) with 0. rewrite Z.mod_0_l by lia. lia.
Qed.

(** 7 January 2020 with period [-5D]. *)
Lemma realign_leaves_the_start_witness :
  (truthy (exact_dates backward_fifth_day) = false
   /\ period backward_fifth_day = PStr ("-5" +:+ "D")
   /\ well_formed (date 2020 1 7) = true
   /\ int_opt "-5" = Some (-5)
   /\ -5 < 0)
  /\ align_start backward_fifth_day (TS (date 2020 1 7))
     = Val (TS (date 2020 1 7)).
Proof.
  split.
  - repeat (split; [reflexivity|]). reflexivity.
  - apply (realign_leaves_the_start backward_fifth_day (date 2020 1 7)
             "-5" (-5)); [reflexivity .. | left; reflexivity].
Defined.

(** X9.  With [exact_dates] false and a period [nD]: a start date off the
    period whose new day exists in its year, and is no later than the last
    day pandas' clock holds (11 April in 2262), is moved forward by less
    than [n] days, within the same year, onto a day [j'] with
    [(j' - 1) mod n = 0]; aligning the date so obtained leaves it as it
    is. *)
Theorem realign_is_forward_and_idempotent
    (self : DateTimeFilter) (t : Timestamp) (p : string) (n : Z) :
  truthy (exact_dates self) = false ->
  period self = PStr (p +:+ "D") ->
  well_formed t = true ->
  int_opt p = Some n ->
  n <> 0 ->
  0 < (dayofyear t - 1) mod n ->
  ceiling (dayofyear t - 1) n * n + 1 <= last_day (year t) ->
  exists t',
    align_start self (TS t) = Val (TS t')
    /\ year t' = year t
    /\ dayofyear t < dayofyear t' < dayofyear t + n
    /\ (dayofyear t' - 1) mod n = 0
    /\ align_start self (TS t') = Val (TS t').
Proof.
  intros not_exact day_unit parsed magnitude.
  intros Hn0 Hr Hx.
  pose proof (dayofyear_bounds t parsed) as B.
  destruct (positive_remainder (dayofyear t - 1) n ltac:(lia) Hn0 Hr)
    as [Hpos Ha].
  pose proof (ceiling_spec (dayofyear t - 1) n Hpos) as C.
  destruct (realigned_date self t p not_exact day_unit parsed n magnitude
              Hn0 Hr Hx) as (m & d & A & V & J).
  set (t' := mkTimestamp (year t) m d 0 0 0) in *.
  assert (J' : dayofyear t' = ceiling (dayofyear t - 1) n * n + 1) by exact J.
  assert (W : well_formed t' = true)
    by exact (align_start_well_formed self t t' parsed A).
  assert (R : (dayofyear t' - 1) mod n = 0).
  { rewrite J'. replace (ceiling (dayofyear t - 1) n * n + 1 - 1)
      with (ceiling (dayofyear t - 1) n * n) by lia.
    apply Z.mod_mul. lia. }
  exists t'. split; [exact A|]. split; [reflexivity|].
  split.
  - rewrite J'. split; [|lia].
    assert ((dayofyear t - 1) <> ceiling (dayofyear t - 1) n * n).
    { intros E. rewrite E, Z.mod_mul in Hr by lia. lia. }
    lia.
  - split; [exact R|].
    apply (unaligned_date self t' p not_exact day_unit W n magnitude Hn0 R).
Qed.

(** 8 January 2020 with period [3D]. *)
Lemma realign_is_forward_and_idempotent_witness :
  (truthy (exact_dates every_third_day) = false
   /\ period every_third_day = PStr ("3" +:+ "D")
   /\ well_formed (date 2020 1 8) = true
   /\ int_opt "3" = Some 3
   /\ 3 <> 0
   /\ 0 < (dayofyear (date 2020 1 8) - 1) mod 3
   /\ ceiling (dayofyear (date 2020 1 8) - 1) 3 * 3 + 1 <= last_day 2020)
  /\ exists t',
       align_start every_third_day (TS (date 2020 1 8)) = Val (TS t')
       /\ year t' = 2020
       /\ dayofyear (date 2020 1 8) < dayofyear t'
          < dayofyear (date 2020 1 8) + 3
       /\ (dayofyear t' - 1) mod 3 = 0
       /\ align_start every_third_day (TS t') = Val (TS t').
Proof.
  assert (N : 3 <> 0) by lia.
  assert (B : ceiling (dayofyear (date 2020 1 8) - 1) 3 * 3 + 1
              <= last_day 2020) by (vm_compute; discriminate).
  split.
  - split; [reflexivity|]. split; [reflexivity|]. split; [reflexivity|].
    split; [reflexivity|]. split; [exact N|]. split; [reflexivity | exact B].
  - apply (realign_is_forward_and_idempotent every_third_day (date 2020 1 8)
             "3" 3 eq_refl eq_refl eq_refl eq_refl N eq_refl B).
Defined.

(** ** Further properties: the dates enumerated *)

(** X10.  With an end date and a period of a fixed length (so many days,
    hours, minutes or seconds, counted forward, the stride and the end date
    moved on by it within 64 bits of nanoseconds): when the end date is
    before the start date of the enumeration, which is the start date after
    its alignment, [filter] raises nothing and adds no value. *)
Theorem end_before_start_gives_no_values
    (self : DateTimeFilter) (t t' e : Timestamp) (p pat : string) (n u : Z) :
  parse_dates self = Val (TS t, Some (TS e)) ->
  align_start self (TS t) = Val (TS t') ->
  period self = PStr p ->
  to_offset p = Val (Tick n u) ->
  stride_fits (n * u) e = true ->
  pattern self = PStr pat ->
  to_seconds e < to_seconds t' ->
  filter self = inr (set_values self (values self)).
Proof.
  intros parsed aligned frequency ticks fits pattern_string.
  assert (forward : 0 < n * u) by (apply stride_fits_spec in fits; lia).
  intros H.
  rewrite (filter_with_end self t t' e p pat n u parsed aligned frequency
             ticks ltac:(lia) pattern_string).
  assert (Q : (to_seconds e - to_seconds t') / (n * u) + 1 <= 0).
  { assert ((to_seconds e - to_seconds t') / (n * u) < 0)
      by (apply Z.div_lt_upper_bound; lia). lia. }
  unfold seqZ. replace (Z.to_nat _) with 0%nat by lia.
  cbn. now rewrite app_nil_r.
Qed.

(** Start 7 January 2020, end 10 January, period [5D]: the start date is
    aligned to 11 January, past the end date. *)
Lemma end_before_start_gives_no_values_witness :
  (parse_dates aligned_past_the_end
   = Val (TS (date 2020 1 7), Some (TS (date 2020 1 10)))
   /\ align_start aligned_past_the_end (TS (date 2020 1 7))
      = Val (TS (date 2020 1 11))
   /\ period aligned_past_the_end = PStr "5D"
   /\ to_offset "5D" = Val (Tick 5 86400)
   /\ stride_fits (5 * 86400) (date 2020 1 10) = true
   /\ pattern aligned_past_the_end = PStr "%Y-%m-%d"
   /\ to_seconds (date 2020 1 10) < to_seconds (date 2020 1 11))
  /\ filter aligned_past_the_end = inr (set_values aligned_past_the_end []).
Proof.
  assert (P : parse_dates aligned_past_the_end
              = Val (TS (date 2020 1 7), Some (TS (date 2020 1 10))))
    by (vm_compute; reflexivity).
  assert (A : align_start aligned_past_the_end (TS (date 2020 1 7))
              = Val (TS (date 2020 1 11))) by (vm_compute; reflexivity).
  assert (O : to_offset "5D" = Val (Tick 5 86400)) by (vm_compute; reflexivity).
  assert (F : stride_fits (5 * 86400) (date 2020 1 10) = true)
    by (vm_compute; reflexivity).
  split.
  - split; [exact P|]. split; [exact A|]. split; [reflexivity|].
    split; [exact O|]. split; [exact F|]. split; reflexivity.
  - apply (end_before_start_gives_no_values aligned_past_the_end
             (date 2020 1 7) (date 2020 1 11) (date 2020 1 10) "5D" "%Y-%m-%d"
             5 86400 P A eq_refl O F eq_refl eq_refl).
Defined.

(** X11.  With an end date not before the start date of the enumeration,
    a period of a fixed length (as in X10) and a pattern of tabulated
    directives: the first value added is that start date, formatted with
    the pattern, and it is followed by as many values as whole periods fit
    between it and the end date. *)
Theorem first_value_and_count
    (self : DateTimeFilter) (t t' e : Timestamp) (p pat : string) (n u : Z) :
  parse_dates self = Val (TS t, Some (TS e)) ->
  align_start self (TS t) = Val (TS t') ->
  period self = PStr p ->
  to_offset p = Val (Tick n u) ->
  stride_fits (n * u) e = true ->
  pattern self = PStr pat ->
  tabulated pat = true ->
  to_seconds t' <= to_seconds e ->
  exists rest,
    filter self
    = inr (set_values self (values self ++ format_with t' pat :: rest))
    /\ Z.of_nat (length rest) = (to_seconds e - to_seconds t') / (n * u).
Proof.
  intros parsed aligned frequency ticks fits pattern_string _.
  assert (forward : 0 < n * u) by (apply stride_fits_spec in fits; lia).
  intros H. rewrite (filter_with_end self t t' e p pat n u parsed aligned frequency
             ticks ltac:(lia) pattern_string).
  pose proof (parse_dates_well_formed self t _ parsed) as W.
  pose proof (align_start_well_formed self t t' W aligned) as W'.
  set (q := (to_seconds e - to_seconds t') / (n * u)).
  assert (Q : 0 <= q) by (apply Z.div_pos; lia).
  rewrite seqZ_cons by lia. rewrite fmap_cons.
  exists ((fun k => format_with (of_seconds (to_seconds t' + k * (n * u))) pat)
          <$> seqZ (Z.succ 0) (Z.pred (q + 1))).
  split.
  - replace (to_seconds t' + 0 * (n * u)) with (to_seconds t') by lia.
    now rewrite (well_formed_of_seconds t' W').
  - rewrite length_fmap, length_seqZ. lia.
Qed.

Lemma first_value_and_count_witness :
  (parse_dates lowercase_fifth_day
   = Val (TS (date 2020 1 7), Some (TS (date 2020 1 20)))
   /\ align_start lowercase_fifth_day (TS (date 2020 1 7))
      = Val (TS (date 2020 1 7))
   /\ period lowercase_fifth_day = PStr "5d"
   /\ to_offset "5d" = Val (Tick 5 86400)
   /\ stride_fits (5 * 86400) (date 2020 1 20) = true
   /\ pattern lowercase_fifth_day = PStr "%Y-%m-%d"
   /\ tabulated "%Y-%m-%d" = true
   /\ to_seconds (date 2020 1 7) <= to_seconds (date 2020 1 20))
  /\ exists rest,
       filter lowercase_fifth_day
       = inr (set_values lowercase_fifth_day
                (values lowercase_fifth_day
                 ++ format_with (date 2020 1 7) "%Y-%m-%d" :: rest))
       /\ Z.of_nat (length rest)
          = (to_seconds (date 2020 1 20) - to_seconds (date 2020 1 7))
            / (5 * 86400).
Proof.
  assert (P : parse_dates lowercase_fifth_day
              = Val (TS (date 2020 1 7), Some (TS (date 2020 1 20))))
    by (vm_compute; reflexivity).
  assert (A : align_start lowercase_fifth_day (TS (date 2020 1 7))
              = Val (TS (date 2020 1 7))) by (vm_compute; reflexivity).
  assert (O : to_offset "5d" = Val (Tick 5 86400)) by (vm_compute; reflexivity).
  assert (F : stride_fits (5 * 86400) (date 2020 1 20) = true)
    by (vm_compute; reflexivity).
  assert (L : to_seconds (date 2020 1 7) <= to_seconds (date 2020 1 20))
    by (vm_compute; discriminate).
  split.
  - split; [exact P|]. split; [exact A|]. split; [reflexivity|].
    split; [exact O|]. split; [exact F|]. split; [reflexivity|].
    split; [reflexivity | exact L].
  - apply (first_value_and_count lowercase_fifth_day
             (date 2020 1 7) (date 2020 1 7) (date 2020 1 20) "5d" "%Y-%m-%d"
             5 86400 P A eq_refl O F eq_refl eq_refl L).
Defined.

(** X12.  The end date is included: with a period of a fixed length (as
    in X10) and a pattern of tabulated directives, when the end date is a
    whole number of periods after the start date of the enumeration, the
    last value added is the end date, formatted with the pattern. *)
Theorem end_on_a_step_is_the_last_value
    (self : DateTimeFilter) (t t' e : Timestamp) (p pat : string) (n u : Z) :
  parse_dates self = Val (TS t, Some (TS e)) ->
  align_start self (TS t) = Val (TS t') ->
  period self = PStr p ->
  to_offset p = Val (Tick n u) ->
  stride_fits (n * u) e = true ->
  pattern self = PStr pat ->
  tabulated pat = true ->
  to_seconds t' <= to_seconds e ->
  (to_seconds e - to_seconds t') mod (n * u) = 0 ->
  exists front,
    filter self
    = inr (set_values self (values self ++ front ++ [format_with e pat])).
Proof.
  intros parsed aligned frequency ticks fits pattern_string _.
  assert (forward : 0 < n * u) by (apply stride_fits_spec in fits; lia).
  intros H M.
  rewrite (filter_with_end self t t' e p pat n u parsed aligned frequency
             ticks ltac:(lia) pattern_string).
  pose proof (parse_dates_end_well_formed self _ e parsed) as We.
  set (q := (to_seconds e - to_seconds t') / (n * u)).
  assert (Q : 0 <= q) by (apply Z.div_pos; lia).
  assert (E : to_seconds t' + q * (n * u) = to_seconds e).
  { pose proof (Z.div_mod (to_seconds e - to_seconds t') (n * u) ltac:(lia)).
    subst q. lia. }
  rewrite (seqZ_app 0 q 1) by lia. rewrite fmap_app.
  change (seqZ (0 + q) 1) with [0 + q]. cbn [fmap list_fmap].
  replace (to_seconds t' + (0 + q) * (n * u)) with (to_seconds e) by lia.
  rewrite (well_formed_of_seconds e We).
  eexists. reflexivity.
Qed.

(** 1 to 11 January 2020 by [5D]. *)
Lemma end_on_a_step_is_the_last_value_witness :
  (parse_dates first_to_eleventh
   = Val (TS (date 2020 1 1), Some (TS (date 2020 1 11)))
   /\ align_start first_to_eleventh (TS (date 2020 1 1))
      = Val (TS (date 2020 1 1))
   /\ period first_to_eleventh = PStr "5D"
   /\ to_offset "5D" = Val (Tick 5 86400)
   /\ stride_fits (5 * 86400) (date 2020 1 11) = true
   /\ pattern first_to_eleventh = PStr "%Y-%m-%d"
   /\ tabulated "%Y-%m-%d" = true
   /\ to_seconds (date 2020 1 1) <= to_seconds (date 2020 1 11)
   /\ (to_seconds (date 2020 1 11) - to_seconds (date 2020 1 1))
      mod (5 * 86400) = 0)
  /\ exists front,
       filter first_to_eleventh
       = inr (set_values first_to_eleventh
                (values first_to_eleventh
                 ++ front ++ [format_with (date 2020 1 11) "%Y-%m-%d"])).
Proof.
  assert (P : parse_dates first_to_eleventh
              = Val (TS (date 2020 1 1), Some (TS (date 2020 1 11))))
    by (vm_compute; reflexivity).
  assert (A : align_start first_to_eleventh (TS (date 2020 1 1))
              = Val (TS (date 2020 1 1))) by (vm_compute; reflexivity).
  assert (O : to_offset "5D" = Val (Tick 5 86400)) by (vm_compute; reflexivity).
  assert (F : stride_fits (5 * 86400) (date 2020 1 11) = true)
    by (vm_compute; reflexivity).
  assert (L : to_seconds (date 2020 1 1) <= to_seconds (date 2020 1 11))
    by (vm_compute; discriminate).
  split.
  - split; [exact P|]. split; [exact A|]. split; [reflexivity|].
    split; [exact O|]. split; [exact F|]. split; [reflexivity|].
    split; [reflexivity|]. split; [exact L | reflexivity].
  - apply (end_on_a_step_is_the_last_value first_to_eleventh
             (date 2020 1 1) (date 2020 1 1) (date 2020 1 11) "5D" "%Y-%m-%d"
             5 86400 P A eq_refl O F eq_refl eq_refl L eq_refl).
Defined.

(** X13.  With an end date, a period of a fixed length (as in X10) and a
    pattern of tabulated directives, every value added is the pattern
    applied to a date that is neither before the start date of the
    enumeration nor after the end date. *)
Theorem values_are_dates_from_start_to_end
    (self : DateTimeFilter) (t t' e : Timestamp) (p pat : string) (n u : Z) :
  parse_dates self = Val (TS t, Some (TS e)) ->
  align_start self (TS t) = Val (TS t') ->
  period self = PStr p ->
  to_offset p = Val (Tick n u) ->
  stride_fits (n * u) e = true ->
  pattern self = PStr pat ->
  tabulated pat = true ->
  exists dates,
    filter self
    = inr (set_values self
             (values self ++ ((fun d => format_with d pat) <$> dates)))
    /\ Forall (fun d => to_seconds t' <= to_seconds d <= to_seconds e) dates.
Proof.
  intros parsed aligned frequency ticks fits pattern_string _.
  assert (forward : 0 < n * u) by (apply stride_fits_spec in fits; lia).
  rewrite (filter_with_end self t t' e p pat n u parsed aligned frequency
             ticks ltac:(lia) pattern_string).
  pose proof (parse_dates_well_formed self t _ parsed) as W.
  pose proof (align_start_well_formed self t t' W aligned) as W'.
  pose proof (to_seconds_nonneg t' W') as P.
  set (q := (to_seconds e - to_seconds t') / (n * u)).
  exists ((fun k => of_seconds (to_seconds t' + k * (n * u))) <$> seqZ 0 (q + 1)).
  split.
  - now rewrite <- list_fmap_compose.
  - apply Forall_fmap, Forall_forall. intros k Hk.
    apply elem_of_seqZ in Hk. cbn.
    assert (0 <= k * (n * u)) by nia.
    rewrite to_seconds_of_seconds by lia.
    split; [lia|].
    assert (k <= q) by lia.
    pose proof (Z.div_mod (to_seconds e - to_seconds t') (n * u) ltac:(lia)) as D.
    pose proof (Z.mod_pos_bound (to_seconds e - to_seconds t') (n * u) forward).
    fold q in D. nia.
Qed.

Lemma values_are_dates_from_start_to_end_witness :
  (parse_dates lowercase_fifth_day
   = Val (TS (date 2020 1 7), Some (TS (date 2020 1 20)))
   /\ align_start lowercase_fifth_day (TS (date 2020 1 7))
      = Val (TS (date 2020 1 7))
   /\ period lowercase_fifth_day = PStr "5d"
   /\ to_offset "5d" = Val (Tick 5 86400)
   /\ stride_fits (5 * 86400) (date 2020 1 20) = true
   /\ pattern lowercase_fifth_day = PStr "%Y-%m-%d"
   /\ tabulated "%Y-%m-%d" = true)
  /\ exists dates,
       filter lowercase_fifth_day
       = inr (set_values lowercase_fifth_day
                (values lowercase_fifth_day
                 ++ ((fun d => format_with d "%Y-%m-%d") <$> dates)))
       /\ Forall (fun d => to_seconds (date 2020 1 7) <= to_seconds d
                           <= to_seconds (date 2020 1 20)) dates.
Proof.
  assert (P : parse_dates lowercase_fifth_day
              = Val (TS (date 2020 1 7), Some (TS (date 2020 1 20))))
    by (vm_compute; reflexivity).
  assert (A : align_start lowercase_fifth_day (TS (date 2020 1 7))
              = Val (TS (date 2020 1 7))) by (vm_compute; reflexivity).
  assert (O : to_offset "5d" = Val (Tick 5 86400)) by (vm_compute; reflexivity).
  assert (F : stride_fits (5 * 86400) (date 2020 1 20) = true)
    by (vm_compute; reflexivity).
  split.
  - split; [exact P|]. split; [exact A|]. split; [reflexivity|].
    split; [exact O|]. split; [exact F|]. split; reflexivity.
  - apply (values_are_dates_from_start_to_end lowercase_fifth_day
             (date 2020 1 7) (date 2020 1 7) (date 2020 1 20) "5d" "%Y-%m-%d"
             5 86400 P A eq_refl O F eq_refl eq_refl).
Defined.

(** X14.  Without an end date, a call of [filter] that returns has added
    exactly one value, whatever the period and the flags are. *)
Theorem one_value_without_end (self self' : DateTimeFilter) :
  end_ self = PNone ->
  filter self = inr self' ->
  exists s, self' = set_values self (values self ++ [s]).
Proof.
  intros He H. unfold filter, parse_dates in H. rewrite He in H.
  cbn [is_not_None] in H.
  destruct (if truthy (has_time self)
            then to_datetime (start self) "%m/%d/%Y %H:%M:%S"
            else to_datetime (start self) "%m/%d/%Y") as [sd|x];
    cbn [bind] in H; [|destruct x; discriminate].
  unfold generate in H.
  destruct (align_start self sd) as [sd'|x]; cbn [bind all_dates] in H;
    [|destruct x; discriminate].
  cbn [append_formatted] in H.
  destruct (strftime sd' (pattern self)) as [s|x]; cbn [bind] in H;
    [|destruct x; discriminate].
  injection H as <-. now exists s.
Qed.

Lemma one_value_without_end_witness :
  (end_ exact_start_only = PNone
   /\ filter exact_start_only
      = inr (set_values exact_start_only ["2020-01-01"]))
  /\ exists s,
       set_values exact_start_only ["2020-01-01"]
       = set_values exact_start_only (values exact_start_only ++ [s]).
Proof.
  split.
  - split; [reflexivity | vm_compute; reflexivity].
  - apply (one_value_without_end exact_start_only);
      [reflexivity | vm_compute; reflexivity].
Defined.

(** X15.  A start given as [None] is not refused as an invalid date: the
    constructor takes it, the first block of [filter] reads it as no date,
    and without an end date [filter] raises 'Unknown error applying
    DateTimeFilter', whatever the pattern, the period and the flags are. *)
Theorem start_None_is_an_unknown_error (self : DateTimeFilter) :
  start self = PNone ->
  end_ self = PNone ->
  parse_dates self = Val (DNone, None)
  /\ filter self = inl UnknownErrorApplying.
Proof.
  intros Hs He.
  assert (P : parse_dates self = Val (DNone, None)).
  { unfold parse_dates. rewrite Hs, He.
    destruct (truthy (has_time self)); reflexivity. }
  split; [exact P|].
  unfold filter. rewrite P. unfold generate, align_start, aligns.
  destruct (truthy (exact_dates self)); cbn [negb bind].
  - cbn [all_dates bind append_formatted strftime]. reflexivity.
  - destruct (period self) as [|b|q]; cbn [subscript bind]; try reflexivity.
    destruct (String.eqb (slice_last q) "D"); reflexivity.
Qed.

Lemma start_None_is_an_unknown_error_witness :
  (__init__ (kw [("pattern", PStr "%Y-%m-%d"); ("start", PNone);
                 ("period", PStr "5D")]) = inr no_start
   /\ start no_start = PNone
   /\ end_ no_start = PNone)
  /\ parse_dates no_start = Val (DNone, None)
  /\ filter no_start = inl UnknownErrorApplying.
Proof.
  split.
  - split; [vm_compute; reflexivity|]. split; reflexivity.
  - apply (start_None_is_an_unknown_error no_start); reflexivity.
Defined.
